(** * AI Weather Chatbot: the chat pipeline of [main.py]

    A shallow embedding of the request pipeline of [main.py]
    ([call_llm], [detect_intent], [fetch_weather], [format_response],
    [handle_non_weather_query], [chat]) and of the Python operations it
    relies on, followed by the properties of the pipeline.

    Conventions.
    - A Python [str] is a [string]; every [ascii] stands for one code point
      below 256, so [str.strip], [str.lower] and [repr] are the Python ones
      on that range.
    - JSON-shaped Python values are the inductive [pyval]; a [dict] is an
      association list in insertion order.
    - Code that awaits the network runs in the monad [M]: a state made of the
      outside world and the log of the HTTP requests sent so far, with Python
      exceptions as the [Raise] outcome. *)

From Stdlib Require Import String Ascii List ZArith NArith Lia Bool DecimalString.
From Stdlib Require Import Floats.SpecFloat.
Import ListNotations.
Local Open Scope list_scope.
Local Open Scope string_scope.

(** ** Python strings *)

Module Str.

Definition chr (n : nat) : string := String (ascii_of_nat n) EmptyString.

(** The double quote, the line feed and the degree sign. *)
Definition dq : string := chr 34.
Definition nl : string := chr 10.
Definition deg : string := chr 176.

Fixpoint join (sep : string) (parts : list string) : string :=
  match parts with
  | [] => ""
  | [p] => p
  | p :: rest => p ++ sep ++ join sep rest
  end.

(** [sub in s] and [s.find(sub)]: index of the first occurrence. *)
Fixpoint find (sub s : string) {struct s} : option nat :=
  match s with
  | EmptyString => if prefix sub "" then Some 0 else None
  | String _ s' =>
      if prefix sub s then Some 0 else option_map S (find sub s')
  end.

(** [s.rfind(sub)]: index of the last occurrence. *)
Fixpoint rfind (sub s : string) {struct s} : option nat :=
  match s with
  | EmptyString => if prefix sub "" then Some 0 else None
  | String _ s' =>
      match rfind sub s' with
      | Some i => Some (S i)
      | None => if prefix sub s then Some 0 else None
      end
  end.

Definition contains (sub s : string) : bool :=
  match find sub s with Some _ => true | None => false end.

(** [s[start:stop]] for indices that are not negative. *)
Definition slice (start stop : nat) (s : string) : string :=
  substring start (stop - start) s.

(** Whitespace of [str.strip()] among the code points below 256. *)
Definition is_space (c : ascii) : bool :=
  let n := nat_of_ascii c in
  (((9 <=? n) && (n <=? 13)) || ((28 <=? n) && (n <=? 32))
   || (n =? 133) || (n =? 160))%nat.

Fixpoint lstrip (s : string) : string :=
  match s with
  | EmptyString => ""
  | String c s' => if is_space c then lstrip s' else s
  end.

Fixpoint rstrip (s : string) : string :=
  match s with
  | EmptyString => ""
  | String c s' =>
      match rstrip s' with
      | EmptyString => if is_space c then "" else String c ""
      | r => String c r
      end
  end.

Definition strip (s : string) : string := rstrip (lstrip s).

(** [str.lower()] below 256: A-Z and the Latin-1 capitals (all of
    0xC0-0xDE but the multiplication sign 0xD7) move up by 32. *)
Definition lower_char (c : ascii) : ascii :=
  let n := nat_of_ascii c in
  if (((65 <=? n) && (n <=? 90))
      || ((192 <=? n) && (n <=? 222) && negb (n =? 215)))%nat
  then ascii_of_nat (n + 32) else c.

Fixpoint lower (s : string) : string :=
  match s with
  | EmptyString => ""
  | String c s' => String (lower_char c) (lower s')
  end.

Fixpoint chars (s : string) : list string :=
  match s with
  | EmptyString => []
  | String c s' => String c "" :: chars s'
  end.

(** [repr] of a [str]. *)
Definition hex_digit (n : nat) : string :=
  substring n 1 "0123456789abcdef".

Definition printable (c : ascii) : bool :=
  let n := nat_of_ascii c in
  (((32 <=? n) && (n <=? 126)) || ((161 <=? n) && negb (n =? 173)))%nat.

Definition repr_char (quote : ascii) (c : ascii) : string :=
  let n := nat_of_ascii c in
  if Ascii.eqb c quote || (n =? 92)%nat then String "\"%char (String c "")
  else if (n =? 9)%nat then "\t"
  else if (n =? 10)%nat then "\n"
  else if (n =? 13)%nat then "\r"
  else if printable c then String c ""
  else "\x" ++ hex_digit (n / 16) ++ hex_digit (n mod 16).

Fixpoint repr_body (quote : ascii) (s : string) : string :=
  match s with
  | EmptyString => ""
  | String c s' => repr_char quote c ++ repr_body quote s'
  end.

Definition repr (s : string) : string :=
  let quote :=
    if contains "'" s && negb (contains dq s) then ascii_of_nat 34 else "'"%char in
  String quote (repr_body quote s) ++ String quote "".

End Str.

(** ** Python values and exceptions *)

#[warnings="-register-all"]
Inductive pyval : Type :=
| PNone
| PBool (b : bool)
| PInt (z : Z)
| PFloat (f : spec_float)
| PStr (s : string)
| PList (items : list pyval)
| PDict (entries : list (string * pyval)).

(** The exceptions the pipeline can meet; all derive from [Exception]. *)
Inductive exn : Type :=
| TypeError
| AttributeError
| KeyError
| IndexError
| ValueError
| JSONDecodeError
| RequestError
| HTTPStatusError
| HTTPException (status_code : Z) (detail : string).

Inductive res (A : Type) : Type :=
| Ok (a : A)
| Raise (e : exn).
Arguments Ok {A} a.
Arguments Raise {A} e.

Definition res_bind {A B} (r : res A) (k : A -> res B) : res B :=
  match r with
  | Ok a => k a
  | Raise e => Raise e
  end.

Module Dict.

Fixpoint lookup {V} (k : string) (d : list (string * V)) : option V :=
  match d with
  | [] => None
  | (k', v) :: d' => if String.eqb k k' then Some v else lookup k d'
  end.

(** [d.get(k, default)] *)
Definition get {V} (k : string) (default : V) (d : list (string * V)) : V :=
  match lookup k d with
  | Some v => v
  | None => default
  end.

(** [d[k] = v]: an existing key keeps its place, a new one goes last. *)
Fixpoint set {V} (k : string) (v : V) (d : list (string * V)) : list (string * V) :=
  match d with
  | [] => [(k, v)]
  | (k', v') :: d' =>
      if String.eqb k k' then (k', v) :: d' else (k', v') :: set k v d'
  end.

Definition mem {V} (k : string) (d : list (string * V)) : bool :=
  match lookup k d with Some _ => true | None => false end.

End Dict.

Module Py.

Definition float_is_zero (f : spec_float) : bool :=
  match f with
  | S754_zero _ => true
  | _ => false
  end.

(** Truth value of an object, as [not] and [or] test it. *)
Definition truthy (v : pyval) : bool :=
  match v with
  | PNone => false
  | PBool b => b
  | PInt z => negb (z =? 0)%Z
  | PFloat f => negb (float_is_zero f)
  | PStr s => negb (String.eqb s "")
  | PList items => match items with [] => false | _ => true end
  | PDict entries => match entries with [] => false | _ => true end
  end.

(** [seq[i]] on a sequence of length [length l]. *)
Definition index {A} (l : list A) (i : Z) : res A :=
  let n := Z.of_nat (length l) in
  let j := if (i <? 0)%Z then (n + i)%Z else i in
  if ((0 <=? j) && (j <? n))%Z
  then match nth_error l (Z.to_nat j) with
       | Some a => Ok a
       | None => Raise IndexError
       end
  else Raise IndexError.

(** [obj[key]] *)
Definition getitem (obj key : pyval) : res pyval :=
  match obj, key with
  | PDict d, PStr k =>
      match Dict.lookup k d with
      | Some v => Ok v
      | None => Raise KeyError
      end
  | PDict _, (PNone | PBool _ | PInt _ | PFloat _) => Raise KeyError
  | PDict _, _ => Raise TypeError
  | PList l, PInt i => index l i
  | PList l, PBool b => index l (if b then 1 else 0)%Z
  | PList _, _ => Raise TypeError
  | PStr s, PInt i => res_bind (index (Str.chars s) i) (fun c => Ok (PStr c))
  | PStr s, PBool b =>
      res_bind (index (Str.chars s) (if b then 1 else 0)%Z) (fun c => Ok (PStr c))
  | PStr _, _ => Raise TypeError
  | _, _ => Raise TypeError
  end.

(** [obj.get(key, default)]: only a dict has the method. *)
Definition get (obj : pyval) (key : string) (default : pyval) : res pyval :=
  match obj with
  | PDict d => Ok (Dict.get key default d)
  | _ => Raise AttributeError
  end.

(** [obj.strip()] and [obj.lower()]: only a str has them. *)
Definition strip (obj : pyval) : res string :=
  match obj with
  | PStr s => Ok (Str.strip s)
  | _ => Raise AttributeError
  end.

Definition lower (obj : pyval) : res string :=
  match obj with
  | PStr s => Ok (Str.lower s)
  | _ => Raise AttributeError
  end.

(** The items a [for] loop over [obj] visits. *)
Definition iter (obj : pyval) : res (list pyval) :=
  match obj with
  | PList l => Ok l
  | PStr s => Ok (map PStr (Str.chars s))
  | PDict d => Ok (map (fun kv => PStr (fst kv)) d)
  | _ => Raise TypeError
  end.

Definition is_str (k : string) (v : pyval) : bool :=
  match v with
  | PStr s => String.eqb k s
  | _ => false
  end.

(** [key in obj] for a str [key]. *)
Definition contains (obj : pyval) (key : string) : res bool :=
  match obj with
  | PDict d => Ok (Dict.mem key d)
  | PList l => Ok (existsb (is_str key) l)
  | PStr s => Ok (Str.contains key s)
  | _ => Raise TypeError
  end.

Definition repr_int (z : Z) : string := NilZero.string_of_int (Z.to_int z).

Section Repr.

(** [repr] of a float is the shortest decimal that reads back; it is taken
    from the interpreter. *)
Variable float_repr : spec_float -> string.

Fixpoint repr (v : pyval) : string :=
  match v with
  | PNone => "None"
  | PBool b => if b then "True" else "False"
  | PInt z => repr_int z
  | PFloat f => float_repr f
  | PStr s => Str.repr s
  | PList items => "[" ++ Str.join ", " (map repr items) ++ "]"
  | PDict entries =>
      "{" ++ Str.join ", "
               (map (fun kv : string * pyval =>
                       match kv with (k, x) => Str.repr k ++ ": " ++ repr x end)
                    entries) ++ "}"
  end.

(** [str(v)], which is what an f-string field [{v}] prints. *)
Definition str (v : pyval) : string :=
  match v with
  | PStr s => s
  | _ => repr v
  end.

End Repr.

End Py.

(** ** The outside world *)

(** What the process sends out: [client.post(url, json=..., headers=...)]
    and [client.get(url, params=...)]. *)
Inductive request : Type :=
| POST (url : string) (headers : pyval) (json : pyval)
| GET (url : string) (params : pyval).

(** What comes back: the client raises (no connection, timeout after 30
    seconds), or an HTTP response arrives. *)
Inductive http_outcome : Type :=
| TransportError
| Response (status_code : Z) (text : string).

(** The interpreter and the network the process runs on.  [send] answers a
    request and moves the world on; [json_loads] is [json.loads] ([None] when
    it raises), [json_dumps] is [json.dumps(_, indent=2)], [float_repr] is
    [float.__repr__], [OPENAI_API_KEY] is the credential read at start-up. *)
Class Runtime : Type := {
  World : Type;
  send : request -> World -> http_outcome * World;
  json_loads : string -> option pyval;
  json_dumps : pyval -> string;
  float_repr : spec_float -> string;
  OPENAI_API_KEY : string
}.

Section Pipeline.

Context {RT : Runtime}.

(** ** State and exceptions *)

Record state : Type := { world : World; sent : list request }.

Definition M (A : Type) : Type := state -> res A * state.

Definition ret {A} (a : A) : M A := fun st => (Ok a, st).

Definition bind {A B} (m : M A) (k : A -> M B) : M B :=
  fun st =>
    match m st with
    | (Ok a, st') => k a st'
    | (Raise e, st') => (Raise e, st')
    end.

Definition raise {A} (e : exn) : M A := fun st => (Raise e, st).

Definition lift {A} (r : res A) : M A := fun st => (r, st).

(** [try: body  except Exception as e: handler(e)] *)
Definition try_except {A} (body : M A) (handler : exn -> M A) : M A :=
  fun st =>
    match body st with
    | (Ok a, st') => (Ok a, st')
    | (Raise e, st') => handler e st'
    end.

(** The outcome of a [try] block whose [except] branch leaves the function. *)
Definition attempt {A} (body : M A) : M (res A) :=
  fun st => let '(r, st') := body st in (Ok r, st').

Notation "x <- m ;; k" := (bind m (fun x => k))
  (at level 61, m at next level, right associativity).
Notation "m ;;; k" := (bind m (fun _ => k))
  (at level 61, right associativity).

(** One round trip; the request is logged whether or not it succeeds. *)
Definition http (req : request) : M (Z * string) :=
  fun st =>
    let '(out, w) := send req (world st) in
    let st' := {| world := w; sent := (sent st ++ [req])%list |} in
    match out with
    | TransportError => (Raise RequestError, st')
    | Response code text => (Ok (code, text), st')
    end.

(** [response.raise_for_status()] *)
Definition raise_for_status (response : Z * string) : M unit :=
  if ((200 <=? fst response) && (fst response <? 300))%Z
  then ret tt else raise HTTPStatusError.

(** [response.json()] *)
Definition response_json (response : Z * string) : M pyval :=
  match json_loads (snd response) with
  | Some v => ret v
  | None => raise JSONDecodeError
  end.

(** Binding the keyword arguments of a call to a function whose parameters
    are [signature], [npos] of them given by position: a keyword that names
    no remaining parameter is a [TypeError], raised before the body runs. *)
Definition call_kw {A} (signature : list string) (npos : nat)
    (kwargs : list (string * pyval)) (body : M A) : M A :=
  if forallb (fun kw => existsb (String.eqb (fst kw)) (skipn npos signature)) kwargs
  then body else raise TypeError.

(** ** Constants of [main.py] *)

Definition AIPIPE_URL : string := "https://aipipe.org/openai/v1/chat/completions".
Definition OPENMETEO_URL : string := "https://api.open-meteo.com/v1/forecast".

Record ChatRequest : Type := { message : string }.
Record ChatResponse : Type := { response : string }.

Definition PARAM_MAPPING : list (string * string) :=
  [ ("temperature", "temperature_2m");
    ("humidity", "relative_humidity_2m");
    ("precipitation", "precipitation");
    ("wind_speed", "wind_speed_10m");
    ("wind", "wind_speed_10m");
    ("weather", "weather_code");
    ("pressure", "pressure_msl");
    ("cloud_cover", "cloud_cover");
    ("clouds", "cloud_cover") ].

Definition role_message (role content : string) : pyval :=
  PDict [("role", PStr role); ("content", PStr content)].

(** ** [call_llm] *)

Definition call_llm (messages : pyval) : M pyval :=
  let headers :=
    PDict [("Authorization", PStr ("Bearer " ++ OPENAI_API_KEY));
           ("Content-Type", PStr "application/json")] in
  let payload :=
    PDict [("model", PStr "gpt-5-nano"); ("messages", messages)] in
  response <- http (POST AIPIPE_URL headers payload) ;;
  raise_for_status response ;;;
  response_json response.

(** [llm_response["choices"][0]["message"]["content"].strip()] *)
Definition message_content (llm_response : pyval) : res string :=
  res_bind (Py.getitem llm_response (PStr "choices")) (fun choices =>
  res_bind (Py.getitem choices (PInt 0)) (fun choice =>
  res_bind (Py.getitem choice (PStr "message")) (fun msg =>
  res_bind (Py.getitem msg (PStr "content")) Py.strip))).

(** ** [detect_intent] *)

Definition q (s : string) : string := Str.dq ++ s ++ Str.dq.

Definition detect_system_prompt : string :=
  Str.join Str.nl
    [ "You are a weather query analyzer. Your task is to determine if the user's message is asking about weather and extract relevant information.";
      "";
      "You must respond with ONLY valid JSON in this exact format:";
      "";
      "For weather queries:";
      "{";
      "  " ++ q "is_weather_query" ++ ": true,";
      "  " ++ q "location" ++ ": " ++ q "City Name" ++ ",";
      "  " ++ q "parameters" ++ ": [" ++ q "temperature" ++ ", " ++ q "humidity" ++ "],";
      "  " ++ q "timeframe" ++ ": " ++ q "current" ++ ",";
      "  " ++ q "latitude" ++ ": 28.6139,";
      "  " ++ q "longitude" ++ ": 77.2090";
      "}";
      "";
      "For non-weather queries:";
      "{";
      "  " ++ q "is_weather_query" ++ ": false";
      "}";
      "";
      "Important rules:";
      "1. Extract the city/location name from the query";
      "2. Determine what weather parameters the user wants (temperature, humidity, precipitation, wind_speed, etc.)";
      "3. Provide accurate latitude and longitude for the location";
      "4. If no specific parameters are mentioned, default to [" ++ q "temperature" ++ "]";
      "5. Timeframe should always be " ++ q "current" ++ " for now";
      "6. Return ONLY the JSON, no other text or explanation" ].

(** Lines 101-104: the text handed to [json.loads].  [index] and [rindex]
    raise [ValueError] when the character is missing. *)
Definition json_candidate (content : string) : res string :=
  if Str.contains "{" content then
    match Str.find "{" content with
    | None => Raise ValueError
    | Some start =>
        match Str.rfind "}" content with
        | None => Raise ValueError
        | Some last => Ok (Str.slice start (last + 1) content)
        end
    end
  else Ok content.

Definition loads (content : string) : res pyval :=
  match json_loads content with
  | Some v => Ok v
  | None => Raise JSONDecodeError
  end.

Definition no_weather_intent : pyval := PDict [("is_weather_query", PBool false)].

Definition detect_messages (user_input : string) : pyval :=
  PList [role_message "system" detect_system_prompt;
         role_message "user" user_input].

(** The body of the [try] block of [detect_intent]. *)
Definition detect_intent_try (user_input : string) : M pyval :=
  llm_response <- call_llm (detect_messages user_input) ;;
  content <- lift (message_content llm_response) ;;
  content <- lift (json_candidate content) ;;
  lift (loads content).

Definition detect_intent (user_input : string) : M pyval :=
  try_except (detect_intent_try user_input) (fun _ => ret no_weather_intent).

(** ** [fetch_weather] *)

(** [PARAM_MAPPING.get(param.lower(), param)] *)
Definition map_param (param : string) : string :=
  Dict.get (Str.lower param) param PARAM_MAPPING.

(** The same on an item of [parameters]: only a str has [lower]. *)
Definition mapped_param (param : pyval) : res string :=
  match param with
  | PStr p => Ok (map_param p)
  | _ => Raise AttributeError
  end.

(** The loop of lines 116-119 over the items of [parameters]. *)
Fixpoint api_params (items : list pyval) : res (list string) :=
  match items with
  | [] => Ok []
  | param :: rest =>
      res_bind (mapped_param param) (fun mapped =>
      res_bind (api_params rest) (fun l => Ok (mapped :: l)))
  end.

Definition fetch_weather (latitude longitude parameters : pyval) : M pyval :=
  items <- lift (Py.iter parameters) ;;
  codes <- lift (api_params items) ;;
  let params :=
    PDict [("latitude", latitude); ("longitude", longitude);
           ("current", PStr (Str.join "," codes))] in
  try_except
    (response <- http (GET OPENMETEO_URL params) ;;
     raise_for_status response ;;;
     response_json response)
    (fun e => raise e).

(** ** [format_response] *)

(** The loop of lines 144-148: [data_dict] after visiting [items]. *)
Fixpoint collect (current : pyval) (items : list pyval)
    (data_dict : list (string * pyval)) : res (list (string * pyval)) :=
  match items with
  | [] => Ok data_dict
  | param :: rest =>
      res_bind (mapped_param param) (fun mapped =>
      res_bind (Py.contains current mapped) (fun present =>
      if present then
        res_bind (Py.getitem current (PStr mapped)) (fun v =>
        collect current rest (Dict.set mapped v data_dict))
      else collect current rest data_dict))
  end.

Definition format_system_prompt : string :=
  Str.join Str.nl
    [ "You are a friendly weather assistant. Format the provided weather data into a natural, conversational response.";
      "";
      "Rules:";
      "1. Use ONLY the data provided - do not make up or hallucinate information";
      "2. Include units properly (" ++ Str.deg ++ "C, %, mm, etc.)";
      "3. Keep the response concise and friendly";
      "4. Mention the location clearly";
      "5. If data is missing, acknowledge it politely" ].

Definition format_user_prompt (location : pyval)
    (data_dict : list (string * pyval)) (current_units : pyval) : string :=
  Str.join Str.nl
    [ "Location: " ++ Py.str float_repr location;
      "";
      "Weather Data: " ++ json_dumps (PDict data_dict);
      "";
      "Units: " ++ json_dumps current_units;
      "";
      "Format this into a natural conversational response." ].

(** Line 180: the text returned when the model cannot be used. *)
Definition format_fallback (location : pyval)
    (data_dict : list (string * pyval)) : string :=
  "Weather data for " ++ Py.str float_repr location ++ ": "
  ++ Py.repr float_repr (PDict data_dict).

Definition format_messages (location : pyval)
    (data_dict : list (string * pyval)) (current_units : pyval) : pyval :=
  PList [role_message "system" format_system_prompt;
         role_message "user" (format_user_prompt location data_dict current_units)].

(** The body of the [try] block of [format_response]. *)
Definition format_response_try (messages : pyval) : M string :=
  llm_response <- call_llm messages ;;
  lift (message_content llm_response).

Definition format_response (location weather_data parameters : pyval) : M string :=
  current <- lift (Py.get weather_data "current" (PDict [])) ;;
  items <- lift (Py.iter parameters) ;;
  data_dict <- lift (collect current items []) ;;
  current_units <- lift (Py.get weather_data "current_units" (PDict [])) ;;
  try_except
    (format_response_try (format_messages location data_dict current_units))
    (fun _ => ret (format_fallback location data_dict)).

(** ** [handle_non_weather_query] *)

Definition assistant_prompt : string :=
  "You are a helpful assistant. Answer the user's question naturally and concisely.".

Definition general_apology : string :=
  "I'm sorry, I couldn't process your request at the moment. Please try again.".

(** The float 0.7, that is 6305039478318694 * 2^-53. *)
Definition float_0_7 : spec_float := S754_finite false 6305039478318694 (-53).

(** [call_llm] is declared as [call_llm(messages)]; line 192 calls it as
    [call_llm(messages, temperature=0.7)]. *)
Definition general_messages (user_input : string) : pyval :=
  PList [role_message "system" assistant_prompt;
         role_message "user" user_input].

Definition handle_non_weather_query (user_input : string) : M string :=
  try_except
    (llm_response <-
       call_kw ["messages"] 1 [("temperature", PFloat float_0_7)]
         (call_llm (general_messages user_input)) ;;
     lift (message_content llm_response))
    (fun _ => ret general_apology).

(** ** [chat] *)

Definition clarification : string :=
  "I couldn't determine the location coordinates. Could you please be more specific about the location?".

Definition fetch_apology (location : pyval) : string :=
  "I'm sorry, I couldn't fetch the weather data for "
  ++ Py.str float_repr location ++ " at the moment. Please try again later.".

Definition server_error : exn :=
  HTTPException 500 "An error occurred while processing your request. Please try again.".

(** Lines 216-232: what [chat] does once the four fields of the intent are
    bound. *)
Definition chat_weather (location latitude longitude parameters : pyval)
    : M ChatResponse :=
  if negb (Py.truthy latitude) || negb (Py.truthy longitude) then
    ret {| response := clarification |}
  else
    fetched <- attempt (fetch_weather latitude longitude parameters) ;;
    match fetched with
    | Raise _ => ret {| response := fetch_apology location |}
    | Ok weather_data =>
        response_text <- format_response location weather_data parameters ;;
        ret {| response := response_text |}
    end.

(** Lines 205-232: what [chat] does with the detected intent. *)
Definition chat_intent (request : ChatRequest) (intent : pyval) : M ChatResponse :=
  is_weather <- lift (Py.get intent "is_weather_query" (PBool false)) ;;
  if negb (Py.truthy is_weather) then
    response_text <- handle_non_weather_query (message request) ;;
    ret {| response := response_text |}
  else
    location <- lift (Py.get intent "location" (PStr "Unknown")) ;;
    latitude <- lift (Py.get intent "latitude" PNone) ;;
    longitude <- lift (Py.get intent "longitude" PNone) ;;
    parameters <- lift (Py.get intent "parameters" (PList [PStr "temperature"])) ;;
    chat_weather location latitude longitude parameters.

Definition chat (request : ChatRequest) : M ChatResponse :=
  try_except
    (intent <- detect_intent (message request) ;;
     chat_intent request intent)
    (fun _ => raise server_error).

(** ** Reading the log *)

Definition is_weather_call (req : request) : bool :=
  match req with
  | GET url _ => String.eqb url OPENMETEO_URL
  | POST _ _ _ => false
  end.

Definition is_llm_call (req : request) : bool :=
  match req with
  | POST url _ _ => String.eqb url AIPIPE_URL
  | GET _ _ => false
  end.

(** How many requests went to the forecast endpoint, to the model. *)
Definition weather_calls (st : state) : nat :=
  length (filter is_weather_call (sent st)).

Definition llm_calls (st : state) : nat :=
  length (filter is_llm_call (sent st)).

End Pipeline.

Arguments state : clear implicits.
Arguments M : clear implicits.

(** ** The substring the specification names *)

Module Spec.

(** Number of characters up to and including the brace that closes the
    [depth] braces already open. *)
Fixpoint closing (depth : nat) (s : string) : option nat :=
  match s with
  | EmptyString => None
  | String c s' =>
      if Ascii.eqb c "{"%char then option_map S (closing (S depth) s')
      else if Ascii.eqb c "}"%char then
        match depth with
        | 0 => None
        | 1 => Some 1
        | S d => option_map S (closing d s')
        end
      else option_map S (closing depth s')
  end.

(** The first balanced [{...}] substring: from the first opening brace to
    the closing brace that matches it. *)
Definition first_balanced (content : string) : option string :=
  match Str.find "{" content with
  | None => None
  | Some start =>
      let rest := substring start (String.length content - start) content in
      option_map (fun n => substring 0 n rest) (closing 0 rest)
  end.

End Spec.

(** ** A scripted runtime

    A runtime to run the pipeline on examples: the network replays a list
    of outcomes, one per request, and JSON documents are read from a
    catalogue of the documents the examples use. *)

Module Demo.

Definition show_float (f : spec_float) : string :=
  match f with
  | S754_zero s => if s then "-0.0" else "0.0"
  | S754_infinity s => if s then "-inf" else "inf"
  | S754_nan => "nan"
  | S754_finite s m e =>
      (if s then "-" else "") ++ Py.repr_int (Zpos m) ++ "*2**" ++ Py.repr_int e
  end.

Definition escape_char (c : ascii) : string :=
  if Ascii.eqb c (ascii_of_nat 34) || Ascii.eqb c "\"%char
  then String "\"%char (String c "") else String c "".

Fixpoint escape (s : string) : string :=
  match s with
  | EmptyString => ""
  | String c s' => escape_char c ++ escape s'
  end.

(** A compact JSON printer. *)
Fixpoint dumps (v : pyval) : string :=
  match v with
  | PNone => "null"
  | PBool b => if b then "true" else "false"
  | PInt z => Py.repr_int z
  | PFloat f => show_float f
  | PStr s => q (escape s)
  | PList items => "[" ++ Str.join ", " (map dumps items) ++ "]"
  | PDict entries =>
      "{" ++ Str.join ", "
               (map (fun kv : string * pyval =>
                       match kv with (k, x) => q (escape k) ++ ": " ++ dumps x end)
                    entries) ++ "}"
  end.

(** The body of a chat completion whose message reads [content]. *)
Definition completion (content : string) : pyval :=
  PDict [("choices",
          PList [PDict [("message",
                         PDict [("role", PStr "assistant");
                                ("content", PStr content)])]])].

Definition joke : string :=
  "Why did the cloud stay home? It was under the weather.".

(** A model text with white space around it. *)
Definition paris_sentence : string := " It is 15 degrees in Paris. ".

Definition intent_general : pyval := PDict [("is_weather_query", PBool false)].

Definition intent_paris : pyval :=
  PDict [("is_weather_query", PBool true); ("location", PStr "Paris");
         ("parameters", PList [PStr "temperature"; PStr "Humidity"]);
         ("latitude", PInt 48); ("longitude", PInt 2)].

(** A weather intent without the [parameters] field. *)
Definition intent_oslo : pyval :=
  PDict [("is_weather_query", PBool true); ("location", PStr "Oslo");
         ("latitude", PInt 59); ("longitude", PInt 10)].

(** A weather intent without coordinates. *)
Definition intent_nowhere : pyval :=
  PDict [("is_weather_query", PBool true); ("location", PStr "Atlantis")].

(** A weather intent on the equator: latitude 0. *)
Definition intent_quito : pyval :=
  PDict [("is_weather_query", PBool true); ("location", PStr "Quito");
         ("parameters", PList [PStr "temperature"]);
         ("latitude", PInt 0); ("longitude", PInt (-78))].

Definition forecast_paris : pyval :=
  PDict [("latitude", PInt 48); ("longitude", PInt 2);
         ("current_units",
          PDict [("temperature_2m", PStr (Str.deg ++ "C"));
                 ("relative_humidity_2m", PStr "%")]);
         ("current",
          PDict [("time", PStr "2024-05-01T12:00");
                 ("temperature_2m", PInt 15);
                 ("relative_humidity_2m", PInt 60)])].

(** A model answer with prose around the intent and braces in the prose. *)
Definition chatty_answer : string :=
  "Sure! " ++ dumps intent_paris ++ " (schema: {is_weather_query, location})".

Definition catalogue : list pyval :=
  [ intent_general; intent_paris; intent_oslo; intent_nowhere; intent_quito;
    forecast_paris;
    completion joke;
    completion paris_sentence;
    completion (dumps intent_general);
    completion (dumps intent_paris);
    completion (dumps intent_oslo);
    completion (dumps intent_nowhere);
    completion (dumps intent_quito);
    completion ("Here you are: " ++ dumps intent_oslo ++ " Anything else?");
    completion chatty_answer;
    completion "not json at all" ].

Definition loads (text : string) : option pyval :=
  List.find (fun v => String.eqb (dumps v) text) catalogue.

Definition replay (req : request) (script : list http_outcome)
    : http_outcome * list http_outcome :=
  match script with
  | [] => (TransportError, [])
  | out :: rest => (out, rest)
  end.

Definition runtime : Runtime :=
  {| World := list http_outcome;
     send := replay;
     json_loads := loads;
     json_dumps := dumps;
     float_repr := show_float;
     OPENAI_API_KEY := "sk-demo" |}.

(** The state in which nothing was sent yet and [script] is to be played. *)
Definition start (script : list http_outcome) : state runtime :=
  {| world := (script : @World runtime); sent := [] |}.

Definition ok (v : pyval) : http_outcome := Response 200 (dumps v).

Definition ask (text : string) : ChatRequest := {| message := text |}.

Definition entries (v : pyval) : list (string * pyval) :=
  match v with
  | PDict d => d
  | _ => []
  end.

(** The model answers with [content], then the rest of [script] plays. *)
Definition answering (content : string) (script : list http_outcome)
    : state runtime :=
  start (ok (completion content) :: script).

(** The state [detect_intent] leaves behind. *)
Definition detected (user_input : string) (st : state runtime) : state runtime :=
  snd (detect_intent user_input st).

Definition wrapped_oslo : string :=
  "Here you are: " ++ dumps intent_oslo ++ " Anything else?".

(** [dumps intent_oslo] without its outer braces. *)
Definition inner_oslo : string :=
  substring 1 (String.length (dumps intent_oslo) - 2) (dumps intent_oslo).

End Demo.

(** ** Which mapped keys a parameter list asks for *)

(** [requested k items]: some item of the list maps to the key [k]. *)
Definition requested (k : string) (items : list pyval) : bool :=
  existsb (fun item =>
             match mapped_param item with
             | Ok mapped => String.eqb k mapped
             | Raise _ => false
             end) items.

(** ** Shapes of values and of requests *)

Module Shape.

Definition is_dict (v : pyval) : bool :=
  match v with
  | PDict _ => true
  | _ => false
  end.

Definition is_str (v : pyval) : bool :=
  match v with
  | PStr _ => true
  | _ => false
  end.

(** The values a [for] loop accepts. *)
Definition iterable (v : pyval) : bool :=
  match v with
  | PList _ | PStr _ | PDict _ => true
  | _ => false
  end.

End Shape.

Section Requests.

Context {RT : Runtime}.

(** The request [call_llm(messages)] sends. *)
Definition llm_request (messages : pyval) : request :=
  POST AIPIPE_URL
    (PDict [("Authorization", PStr ("Bearer " ++ OPENAI_API_KEY));
            ("Content-Type", PStr "application/json")])
    (PDict [("model", PStr "gpt-5-nano"); ("messages", messages)]).

(** The request [fetch_weather] sends for the provider codes [codes]. *)
Definition weather_request (latitude longitude : pyval) (codes : list string)
    : request :=
  GET OPENMETEO_URL
    (PDict [("latitude", latitude); ("longitude", longitude);
            ("current", PStr (Str.join "," codes))]).

(** What the code after a round trip makes of the answer: the client's
    error, a status error outside 200-299, the decoded body, or a decoding
    error. *)
Definition read_outcome (out : http_outcome) : res pyval :=
  match out with
  | TransportError => Raise RequestError
  | Response code text =>
      if ((200 <=? code) && (code <? 300))%Z then
        match json_loads text with
        | Some v => Ok v
        | None => Raise JSONDecodeError
        end
      else Raise HTTPStatusError
  end.

(** The state after [req] was sent from [st]. *)
Definition after (req : request) (st : state RT) : state RT :=
  {| world := snd (send req (world st)); sent := (sent st ++ [req])%list |}.

End Requests.

(** ** A second scripted runtime, with more documents *)

Module Lab.

(** A weather intent whose [parameters] field is null. *)
Definition intent_null_parameters : pyval :=
  PDict [("is_weather_query", PBool true); ("location", PStr "Lima");
         ("parameters", PNone);
         ("latitude", PInt (-12)); ("longitude", PInt (-77))].

(** A weather intent whose [parameters] field is a str, not a list. *)
Definition intent_str_parameters : pyval :=
  PDict [("is_weather_query", PBool true); ("location", PStr "Rome");
         ("parameters", PStr "wind");
         ("latitude", PInt 41); ("longitude", PInt 12)].

Definition catalogue : list pyval :=
  (Demo.catalogue ++
   [ PInt 42; PList [];
     intent_null_parameters; intent_str_parameters;
     Demo.completion "42";
     Demo.completion "{ unfinished";
     Demo.completion (Demo.dumps intent_null_parameters);
     Demo.completion (Demo.dumps intent_str_parameters) ])%list.

Definition loads (text : string) : option pyval :=
  List.find (fun v => String.eqb (Demo.dumps v) text) catalogue.

Definition runtime : Runtime :=
  {| World := list http_outcome;
     send := Demo.replay;
     json_loads := loads;
     json_dumps := Demo.dumps;
     float_repr := Demo.show_float;
     OPENAI_API_KEY := "sk-lab" |}.

Definition start (script : list http_outcome) : state runtime :=
  {| world := (script : @World runtime); sent := [] |}.

(** The model answers with [content], then the rest of [script] plays. *)
Definition answering (content : string) (script : list http_outcome)
    : state runtime :=
  start (Demo.ok (Demo.completion content) :: script).

End Lab.

(** [quiet new]: none of the requests [new] goes to the forecast endpoint. *)
Definition quiet (new : list request) : Prop :=
  forallb (fun req => negb (is_weather_call req)) new = true.

(** * Properties *)

(** ** Strings *)

Section StringFacts.

Lemma prefix_char (c b : ascii) (s : string) :
  prefix (String c "") (String b s) = Ascii.eqb c b.
Proof.
  simpl. destruct (ascii_dec c b) as [->|n].
  - rewrite Ascii.eqb_refl. now destruct s.
  - symmetry. now apply Ascii.eqb_neq.
Qed.

Lemma find_char_cons (c b : ascii) (s : string) :
  Str.find (String c "") (String b s) =
  if Ascii.eqb c b then Some 0 else option_map S (Str.find (String c "") s).
Proof.
  change (Str.find (String c "") (String b s))
    with (if prefix (String c "") (String b s) then Some 0
          else option_map S (Str.find (String c "") s)).
  now rewrite prefix_char.
Qed.

Lemma rfind_char_cons (c b : ascii) (s : string) :
  Str.rfind (String c "") (String b s) =
  match Str.rfind (String c "") s with
  | Some i => Some (S i)
  | None => if Ascii.eqb c b then Some 0 else None
  end.
Proof.
  change (Str.rfind (String c "") (String b s))
    with (match Str.rfind (String c "") s with
          | Some i => Some (S i)
          | None => if prefix (String c "") (String b s) then Some 0 else None
          end).
  now rewrite prefix_char.
Qed.

Lemma find_char_nil (c : ascii) : Str.find (String c "") "" = None.
Proof. reflexivity. Qed.

Lemma rfind_char_nil (c : ascii) : Str.rfind (String c "") "" = None.
Proof. reflexivity. Qed.

(** The first occurrence of [c] in [pre ++ c ++ rest] is right after [pre]
    when [pre] is free of [c]. *)
Lemma find_char_app (c : ascii) (pre rest : string) :
  Str.contains (String c "") pre = false ->
  Str.find (String c "") (pre ++ String c rest) = Some (String.length pre).
Proof.
  unfold Str.contains. induction pre as [|b pre IH]; intros H.
  - simpl append. rewrite find_char_cons, Ascii.eqb_refl. reflexivity.
  - simpl append. rewrite find_char_cons in *.
    destruct (Ascii.eqb c b); [discriminate|].
    rewrite IH; [reflexivity|].
    destruct (Str.find (String c "") pre); [discriminate | reflexivity].
Qed.

Lemma rfind_char_none (c : ascii) (s : string) :
  Str.contains (String c "") s = false -> Str.rfind (String c "") s = None.
Proof.
  unfold Str.contains. induction s as [|b s IH]; intros H; [reflexivity|].
  rewrite find_char_cons in H. rewrite rfind_char_cons.
  destruct (Ascii.eqb c b); [discriminate|].
  rewrite IH; [reflexivity|].
  destruct (Str.find (String c "") s); [discriminate | reflexivity].
Qed.

(** The last occurrence of [c] in [s ++ c ++ post] is right after [s] when
    [post] is free of [c]. *)
Lemma rfind_char_app (c : ascii) (s post : string) :
  Str.contains (String c "") post = false ->
  Str.rfind (String c "") (s ++ String c post) = Some (String.length s).
Proof.
  intros H. induction s as [|b s IH].
  - simpl append. rewrite rfind_char_cons, (rfind_char_none _ _ H), Ascii.eqb_refl.
    reflexivity.
  - simpl append. rewrite rfind_char_cons, IH. reflexivity.
Qed.

Lemma contains_char_app (c : ascii) (pre rest : string) :
  Str.contains (String c "") (pre ++ String c rest) = true.
Proof.
  unfold Str.contains. induction pre as [|b pre IH]; simpl append.
  - now rewrite find_char_cons, Ascii.eqb_refl.
  - rewrite find_char_cons. destruct (Ascii.eqb c b); [reflexivity|].
    destruct (Str.find (String c "") (pre ++ String c rest)); [reflexivity | discriminate].
Qed.

Lemma substring_skip (pre s : string) (n : nat) :
  substring (String.length pre) n (pre ++ s) = substring 0 n s.
Proof.
  induction pre as [|b pre IH]; simpl; [reflexivity|].
  destruct n; exact IH.
Qed.

Lemma substring_take (s post : string) :
  substring 0 (String.length s) (s ++ post) = s.
Proof.
  induction s as [|b s IH]; simpl.
  - now destruct post.
  - now rewrite IH.
Qed.

Lemma length_append (s t : string) :
  String.length (s ++ t) = String.length s + String.length t.
Proof. induction s as [|b s IH]; simpl; [reflexivity | now rewrite IH]. Qed.

Lemma append_assoc (s t u : string) : (s ++ t) ++ u = s ++ t ++ u.
Proof. induction s as [|b s IH]; simpl; [reflexivity | now rewrite IH]. Qed.

(** The slice of lines 102-104 on a text of the shape
    [pre { mid } post]. *)
Lemma json_candidate_shape (pre mid post : string) :
  Str.contains "{" pre = false ->
  Str.contains "}" post = false ->
  json_candidate (pre ++ "{" ++ mid ++ "}" ++ post) = Ok ("{" ++ mid ++ "}").
Proof.
  intros Hpre Hpost. unfold json_candidate.
  change ("{" ++ mid ++ "}" ++ post) with (String "{" (mid ++ String "}" post)).
  rewrite contains_char_app, (find_char_app _ _ _ Hpre).
  replace (pre ++ String "{" (mid ++ String "}" post))
    with ((pre ++ String "{" mid) ++ String "}" post)
    by (rewrite append_assoc; reflexivity).
  rewrite (rfind_char_app _ _ _ Hpost).
  unfold Str.slice.
  rewrite append_assoc. simpl append.
  rewrite substring_skip.
  replace (String.length (pre ++ String "{" mid) + 1 - String.length pre)
    with (String.length (String "{" (mid ++ "}"))).
  - change (String "{" (mid ++ String "}" post))
      with (String "{" (mid ++ "}" ++ post)).
    rewrite <- (append_assoc mid "}" post).
    change (String "{" ((mid ++ "}") ++ post))
      with ((String "{" (mid ++ "}")) ++ post).
    rewrite substring_take. reflexivity.
  - rewrite length_append. simpl. rewrite length_append. simpl. lia.
Qed.

End StringFacts.

(** ** Dictionaries *)

Section DictFacts.

Context {V : Type}.

Lemma lookup_In (k : string) (v : V) (d : list (string * V)) :
  Dict.lookup k d = Some v -> In (k, v) d.
Proof.
  induction d as [|[k' v'] d IH]; simpl; [discriminate|].
  destruct (String.eqb k k') eqn:E.
  - apply String.eqb_eq in E. intros [= ->]. subst. now left.
  - intros H. right. now apply IH.
Qed.

Lemma lookup_set (k k' : string) (v : V) (d : list (string * V)) :
  Dict.lookup k (Dict.set k' v d) =
  if String.eqb k k' then Some v else Dict.lookup k d.
Proof.
  induction d as [|[k0 v0] d IH]; simpl.
  - reflexivity.
  - destruct (String.eqb k' k0) eqn:E0; simpl.
    + apply String.eqb_eq in E0. subst k0.
      destruct (String.eqb k k'); reflexivity.
    + destruct (String.eqb k k0) eqn:E1.
      * apply String.eqb_eq in E1. subst k0.
        rewrite String.eqb_sym, E0. reflexivity.
      * exact IH.
Qed.

End DictFacts.

(** ** The request log *)

Section LogFacts.

Context {RT : Runtime}.

(** Runs the two steps that follow a round trip, [raise_for_status] and
    [response.json()], through their cases. *)
Ltac read_response resp :=
  unfold raise_for_status, response_json, ret, raise;
  destruct ((200 <=? fst resp) && (fst resp <? 300))%Z;
  [destruct (json_loads (snd resp))|].

Lemma http_log (req : request) (st st' : state RT) (r : res (Z * string)) :
  http req st = (r, st') -> sent st' = (sent st ++ [req])%list.
Proof.
  unfold http. destruct (send req (world st)) as [out w].
  destruct out; intros [= <- <-]; reflexivity.
Qed.

Lemma call_llm_log (messages : pyval) (st st' : state RT) (r : res pyval) :
  call_llm messages st = (r, st') ->
  exists req, is_weather_call req = false /\ sent st' = (sent st ++ [req])%list.
Proof.
  unfold call_llm, bind.
  match goal with |- context [http ?rq st] => set (req := rq) end.
  destruct (http req st) as [[resp|e] st1] eqn:H; apply http_log in H.
  - read_response resp; intros [= <- <-]; exists req; split; auto.
  - intros [= <- <-]. exists req; split; auto.
Qed.

Lemma detect_intent_try_log (msg : string) (st st' : state RT) (r : res pyval) :
  detect_intent_try msg st = (r, st') ->
  exists req, is_weather_call req = false /\ sent st' = (sent st ++ [req])%list.
Proof.
  unfold detect_intent_try, bind, lift.
  destruct (call_llm (detect_messages msg) st) as [[resp|e] st1] eqn:H;
    apply call_llm_log in H.
  - destruct (message_content resp) as [content|e1];
      [destruct (json_candidate content) as [text|e2]|];
      intros [= <- <-]; exact H.
  - intros [= <- <-]; exact H.
Qed.

Lemma detect_intent_log (msg : string) (st st' : state RT) (r : res pyval) :
  detect_intent msg st = (r, st') ->
  exists req, is_weather_call req = false /\ sent st' = (sent st ++ [req])%list.
Proof.
  unfold detect_intent, try_except, ret.
  destruct (detect_intent_try msg st) as [[v|e] st1] eqn:H;
    apply detect_intent_try_log in H; intros [= <- <-]; exact H.
Qed.

Lemma detect_intent_never_raises (msg : string) (st : state RT) :
  exists intent st', detect_intent msg st = (Ok intent, st').
Proof.
  unfold detect_intent, try_except, ret.
  destruct (detect_intent_try msg st) as [[v|e] st1]; eauto.
Qed.

Lemma weather_calls_quiet (st st' : state RT) (req : request) :
  is_weather_call req = false ->
  sent st' = (sent st ++ [req])%list ->
  weather_calls st' = weather_calls st.
Proof.
  intros Hq Hs. unfold weather_calls. rewrite Hs, filter_app. simpl.
  rewrite Hq, app_nil_r. reflexivity.
Qed.

(** [fetch_weather] sends at most one request. *)
Lemma fetch_weather_log (latitude longitude parameters : pyval)
    (st st' : state RT) (r : res pyval) :
  fetch_weather latitude longitude parameters st = (r, st') ->
  sent st' = sent st \/
  exists params, sent st' = (sent st ++ [GET OPENMETEO_URL params])%list.
Proof.
  unfold fetch_weather, bind, lift, try_except.
  destruct (Py.iter parameters) as [items|e0]; [|intros [= <- <-]; now left].
  destruct (api_params items) as [codes|e1]; [|intros [= <- <-]; now left].
  match goal with |- context [http ?rq st] => set (req := rq) end.
  destruct (http req st) as [[resp|e] st1] eqn:H; apply http_log in H.
  - read_response resp; intros [= <- <-]; right; eexists; exact H.
  - unfold raise. intros [= <- <-]. right; eexists; exact H.
Qed.

(** The keyword [temperature] is not a parameter of [call_llm]: the call of
    line 192 raises before anything is sent, and the handler answers with
    the apology. *)
Lemma handle_non_weather_query_apology (user_input : string) (st : state RT) :
  handle_non_weather_query user_input st = (Ok general_apology, st).
Proof. reflexivity. Qed.

End LogFacts.

(** ** The parameter mapping *)

Section Mapping.

Lemma map_param_lookup (p : string) :
  map_param p =
  match Dict.lookup (Str.lower p) PARAM_MAPPING with
  | Some code => code
  | None => p
  end.
Proof. reflexivity. Qed.

Lemma map_param_key (k code : string) :
  In (k, code) PARAM_MAPPING -> map_param k = code.
Proof.
  unfold PARAM_MAPPING. intros H.
  repeat (destruct H as [H|H]; [injection H as <- <-; reflexivity|]).
  destruct H.
Qed.

Lemma map_param_code_fixed (k code : string) :
  In (k, code) PARAM_MAPPING -> map_param code = code.
Proof.
  unfold PARAM_MAPPING. intros H.
  repeat (destruct H as [H|H]; [injection H as <- <-; reflexivity|]).
  destruct H.
Qed.

Lemma map_param_idempotent (p : string) :
  map_param (map_param p) = map_param p.
Proof.
  destruct (Dict.lookup (Str.lower p) PARAM_MAPPING) as [code|] eqn:E.
  - assert (Hp : map_param p = code) by (rewrite map_param_lookup, E; reflexivity).
    rewrite Hp. apply lookup_In in E. exact (map_param_code_fixed _ _ E).
  - assert (Hp : map_param p = p) by (rewrite map_param_lookup, E; reflexivity).
    rewrite !Hp. reflexivity.
Qed.

(** C7, as the claim states it, fails: the name [Temperature] is absent
    from PARAM_MAPPING, whose keys are all lower-case, and yet it does not
    pass through unchanged, because the look-up lower-cases the name
    first. *)
Lemma map_param_absent_name_changed :
  ~ (forall p : string,
       Dict.lookup p PARAM_MAPPING = None -> map_param p = p).
Proof.
  intros H. specialize (H "Temperature" eq_refl). discriminate H.
Qed.

(** C7 (amended): the parameter mapping [PARAM_MAPPING.get(p.lower(), p)]
    is total and idempotent.  It never raises on a str; every key of
    PARAM_MAPPING maps to its provider code; every name whose lower-case
    form is absent from PARAM_MAPPING passes through unchanged; applying it
    twice equals applying it once; [temperature] maps to [temperature_2m]
    and [made_up_param] to itself. *)
Theorem map_param_total_idempotent :
  (forall p, mapped_param (PStr p) = Ok (map_param p)) /\
  (forall k code, In (k, code) PARAM_MAPPING -> map_param k = code) /\
  (forall p, Dict.lookup (Str.lower p) PARAM_MAPPING = None -> map_param p = p) /\
  (forall p, map_param (map_param p) = map_param p) /\
  map_param "temperature" = "temperature_2m" /\
  map_param "made_up_param" = "made_up_param".
Proof.
  split; [reflexivity|].
  split; [exact map_param_key|].
  split; [intros p E; rewrite map_param_lookup, E; reflexivity|].
  split; [exact map_param_idempotent|].
  split; reflexivity.
Qed.

End Mapping.

(** ** Intent detection *)

Section Detection.

Context {RT : Runtime}.

(** C3, as the claim states it, fails: on a text with a second pair of
    braces after the JSON object, the first balanced substring stops at the
    matching brace, while the text handed to the parser runs on to the
    last closing brace of the whole text. *)
Lemma json_candidate_not_first_balanced :
  ~ (forall content sub : string,
       Spec.first_balanced content = Some sub ->
       json_candidate content = Ok sub).
Proof.
  intros H.
  specialize (H "{a} or {b}" "{a}" eq_refl). discriminate H.
Qed.

(** C3 (amended): when the model's stripped text contains an opening brace,
    detect_intent parses the substring from the first opening brace to the
    last closing brace of the text: on a text [pre { mid } post] with no
    opening brace in [pre] and no closing brace in [post], the parser is
    given [{ mid }], whatever prose [pre] and [post] hold, and the intent
    is its result (or the non-weather intent when it does not parse). *)
Theorem detect_intent_parses_outer_braces
    (user_input : string) (st st1 : state RT) (llm_response : pyval)
    (pre mid post : string) :
  call_llm (detect_messages user_input) st = (Ok llm_response, st1) ->
  message_content llm_response = Ok (pre ++ "{" ++ mid ++ "}" ++ post) ->
  Str.contains "{" pre = false ->
  Str.contains "}" post = false ->
  json_candidate (pre ++ "{" ++ mid ++ "}" ++ post) = Ok ("{" ++ mid ++ "}") /\
  detect_intent user_input st =
    (Ok match json_loads ("{" ++ mid ++ "}") with
        | Some intent => intent
        | None => no_weather_intent
        end, st1).
Proof.
  intros Hcall Hcontent Hpre Hpost.
  pose proof (json_candidate_shape pre mid post Hpre Hpost) as Hcand.
  split; [exact Hcand|].
  unfold detect_intent, try_except, detect_intent_try, bind, lift.
  rewrite Hcall, Hcontent, Hcand. unfold loads, ret.
  destruct (json_loads ("{" ++ mid ++ "}")); reflexivity.
Qed.

(** C6: whenever the try block of detect_intent raises, be it a network
    failure, a bad status, a body or a model text that does not parse, or a
    reply of the wrong shape, detect_intent returns exactly the intent
    [{"is_weather_query": False}]; and detect_intent never raises. *)
Theorem detect_intent_fails_open
    (user_input : string) (st st' : state RT) (e : exn) :
  detect_intent_try user_input st = (Raise e, st') ->
  detect_intent user_input st = (Ok no_weather_intent, st') /\
  (forall msg st0, exists intent st1, detect_intent msg st0 = (Ok intent, st1)).
Proof.
  intros H. split.
  - unfold detect_intent, try_except. rewrite H. reflexivity.
  - exact detect_intent_never_raises.
Qed.

(** The failures the claim names do make the try block raise. *)
Lemma detect_intent_try_network_failure
    (user_input : string) (st : state RT) (req : request) (w : World) :
  req = POST AIPIPE_URL
          (PDict [("Authorization", PStr ("Bearer " ++ OPENAI_API_KEY));
                  ("Content-Type", PStr "application/json")])
          (PDict [("model", PStr "gpt-5-nano");
                  ("messages", detect_messages user_input)]) ->
  send req (world st) = (TransportError, w) ->
  detect_intent_try user_input st =
    (Raise RequestError, {| world := w; sent := (sent st ++ [req])%list |}).
Proof.
  intros -> H.
  unfold detect_intent_try, bind, call_llm, bind, http. rewrite H. reflexivity.
Qed.

Lemma detect_intent_try_parse_failure
    (user_input : string) (st st1 : state RT) (llm_response : pyval)
    (content text : string) :
  call_llm (detect_messages user_input) st = (Ok llm_response, st1) ->
  message_content llm_response = Ok content ->
  json_candidate content = Ok text ->
  json_loads text = None ->
  detect_intent_try user_input st = (Raise JSONDecodeError, st1).
Proof.
  intros Hcall Hcontent Hcand Hload.
  unfold detect_intent_try, bind, lift. rewrite Hcall, Hcontent, Hcand.
  unfold loads. rewrite Hload. reflexivity.
Qed.

End Detection.

(** ** Formatting *)

Section Formatting.

Context {RT : Runtime}.

(** What the loop of [format_response] leaves in [data_dict]. *)
Lemma collect_lookup (c : list (string * pyval)) (items : list pyval) :
  forall acc data_dict,
    collect (PDict c) items acc = Ok data_dict ->
    forall k,
      Dict.lookup k data_dict =
      if requested k items
      then match Dict.lookup k c with
           | Some v => Some v
           | None => Dict.lookup k acc
           end
      else Dict.lookup k acc.
Proof.
  induction items as [|item rest IH]; intros acc data_dict H k.
  - injection H as <-. reflexivity.
  - destruct item; try discriminate H.
    cbn [collect mapped_param res_bind Py.contains] in H.
    cbn [requested existsb mapped_param]. fold (requested k rest).
    unfold Dict.mem in H.
    destruct (Dict.lookup (map_param s) c) as [v|] eqn:E.
    + cbn [Py.getitem res_bind] in H. rewrite E in H. cbn [res_bind] in H.
      rewrite (IH _ _ H k), lookup_set.
      destruct (String.eqb k (map_param s)) eqn:Ek.
      * apply String.eqb_eq in Ek. subst k. rewrite E.
        destruct (requested (map_param s) rest); reflexivity.
      * reflexivity.
    + rewrite (IH _ _ H k).
      destruct (String.eqb k (map_param s)) eqn:Ek.
      * apply String.eqb_eq in Ek. subst k. rewrite E.
        destruct (requested (map_param s) rest); reflexivity.
      * reflexivity.
Qed.

(** On a list of strs and a dict the loop never raises. *)
Lemma collect_total (c : list (string * pyval)) (names : list string) :
  forall acc, exists data_dict,
    collect (PDict c) (map PStr names) acc = Ok data_dict.
Proof.
  induction names as [|p names IH]; intros acc.
  - exists acc. reflexivity.
  - cbn [map collect mapped_param res_bind Py.contains]. unfold Dict.mem.
    destruct (Dict.lookup (map_param p) c) as [v|] eqn:E.
    + cbn [Py.getitem]. rewrite E. cbn [res_bind]. apply IH.
    + apply IH.
Qed.

(** C9: when the weather payload is a dict whose current-value mapping is a
    dict [c] and the loop over the parameters has built [data_dict], a
    failure of the formatting call to the model (the try block raises)
    makes format_response return, instead of raising, the text
    [Weather data for <location>: <data_dict>], where [data_dict] is [c]
    filtered to the mapped keys of the requested parameters. *)
Theorem format_response_falls_back
    (location parameters : pyval) (w c data_dict : list (string * pyval))
    (items : list pyval) (st st' : state RT) (e : exn) :
  Dict.get "current" (PDict []) w = PDict c ->
  Py.iter parameters = Ok items ->
  collect (PDict c) items [] = Ok data_dict ->
  format_response_try
    (format_messages location data_dict (Dict.get "current_units" (PDict []) w)) st
  = (Raise e, st') ->
  format_response location (PDict w) parameters st
  = (Ok ("Weather data for " ++ Py.str float_repr location ++ ": "
         ++ Py.repr float_repr (PDict data_dict)), st') /\
  (forall k, Dict.lookup k data_dict =
             if requested k items then Dict.lookup k c else None).
Proof.
  intros Hcur Hiter Hcollect Hfail. split.
  - unfold format_response, bind, lift, try_except. cbn [Py.get].
    rewrite Hcur, Hiter, Hcollect, Hfail. reflexivity.
  - intros k. rewrite (collect_lookup _ _ _ _ Hcollect k). cbn [Dict.lookup].
    destruct (requested k items); [destruct (Dict.lookup k c)|]; reflexivity.
Qed.

End Formatting.

(** ** The chat endpoint *)

Section Chat.

Context {RT : Runtime}.

Lemma chat_after_detect (request : ChatRequest) (st st1 : state RT) (intent : pyval) :
  detect_intent (message request) st = (Ok intent, st1) ->
  chat request st =
    match chat_intent request intent st1 with
    | (Ok a, st2) => (Ok a, st2)
    | (Raise _, st2) => (Raise server_error, st2)
    end.
Proof.
  intros H. unfold chat, try_except, bind. rewrite H.
  destruct (chat_intent request intent st1) as [[a|e] st2]; reflexivity.
Qed.

Lemma chat_intent_weather (request : ChatRequest) (d : list (string * pyval)) :
  Py.truthy (Dict.get "is_weather_query" (PBool false) d) = true ->
  chat_intent request (PDict d) =
    chat_weather (Dict.get "location" (PStr "Unknown") d)
                 (Dict.get "latitude" PNone d)
                 (Dict.get "longitude" PNone d)
                 (Dict.get "parameters" (PList [PStr "temperature"]) d).
Proof.
  intros H. unfold chat_intent, bind, lift. cbn [Py.get]. rewrite H. reflexivity.
Qed.

(** The branch of line 216. *)
Lemma chat_clarifies (request : ChatRequest) (st st1 : state RT)
    (d : list (string * pyval)) :
  detect_intent (message request) st = (Ok (PDict d), st1) ->
  Py.truthy (Dict.get "is_weather_query" (PBool false) d) = true ->
  negb (Py.truthy (Dict.get "latitude" PNone d))
  || negb (Py.truthy (Dict.get "longitude" PNone d)) = true ->
  chat request st = (Ok {| response := clarification |}, st1) /\
  exists new, sent st1 = (sent st ++ new)%list /\ quiet new.
Proof.
  intros Hdetect Hweather Hcoord. split.
  - rewrite (chat_after_detect _ _ _ _ Hdetect), (chat_intent_weather _ _ Hweather).
    unfold chat_weather. rewrite Hcoord. reflexivity.
  - destruct (detect_intent_log _ _ _ _ Hdetect) as (req & Hq & Hs).
    exists [req]. split; [exact Hs|]. unfold quiet. simpl. now rewrite Hq.
Qed.

(** C2: when the detected intent is not a weather query (its
    [is_weather_query] field is absent or falsy), the response of chat is
    exactly the text handle_non_weather_query returns for the message, and
    no request of the whole exchange goes to the forecast endpoint. *)
Theorem chat_non_weather_uses_general_handler
    (request : ChatRequest) (st st1 : state RT) (d : list (string * pyval)) :
  detect_intent (message request) st = (Ok (PDict d), st1) ->
  Py.truthy (Dict.get "is_weather_query" (PBool false) d) = false ->
  exists text st2 new,
    handle_non_weather_query (message request) st1 = (Ok text, st2) /\
    chat request st = (Ok {| response := text |}, st2) /\
    sent st2 = (sent st ++ new)%list /\ quiet new.
Proof.
  intros Hdetect Hflag.
  destruct (detect_intent_log _ _ _ _ Hdetect) as (req & Hq & Hs).
  exists general_apology, st1, [req].
  split; [apply handle_non_weather_query_apology|].
  split; [|split; [exact Hs | unfold quiet; simpl; now rewrite Hq]].
  rewrite (chat_after_detect _ _ _ _ Hdetect).
  unfold chat_intent, bind, lift. cbn [Py.get]. rewrite Hflag. cbn [negb].
  rewrite handle_non_weather_query_apology. reflexivity.
Qed.

(** C4: when the detected intent is a weather query and its latitude or its
    longitude field is missing, chat returns exactly the clarification
    sentence and no request goes to the forecast endpoint. *)
Theorem chat_missing_coordinates
    (request : ChatRequest) (st st1 : state RT) (d : list (string * pyval)) :
  detect_intent (message request) st = (Ok (PDict d), st1) ->
  Py.truthy (Dict.get "is_weather_query" (PBool false) d) = true ->
  Dict.lookup "latitude" d = None \/ Dict.lookup "longitude" d = None ->
  chat request st =
    (Ok {| response := "I couldn't determine the location coordinates. Could you please be more specific about the location?" |}, st1) /\
  exists new, sent st1 = (sent st ++ new)%list /\ quiet new.
Proof.
  intros Hdetect Hweather Hmissing.
  apply (chat_clarifies request st st1 d Hdetect Hweather).
  unfold Dict.get.
  destruct Hmissing as [-> | ->]; cbn [Py.truthy negb orb];
    [reflexivity | apply orb_true_r].
Qed.

(** C10: when the detected intent is a weather query and its latitude or
    its longitude is present but falsy (the integer 0, the float 0.0 or
    -0.0, null, ...), chat treats the coordinates as missing: it returns
    the clarification sentence and sends nothing to the forecast endpoint. *)
Theorem chat_zero_coordinates
    (request : ChatRequest) (st st1 : state RT) (d : list (string * pyval))
    (v : pyval) :
  detect_intent (message request) st = (Ok (PDict d), st1) ->
  Py.truthy (Dict.get "is_weather_query" (PBool false) d) = true ->
  Dict.lookup "latitude" d = Some v \/ Dict.lookup "longitude" d = Some v ->
  Py.truthy v = false ->
  (Py.truthy (PInt 0) = false /\
   Py.truthy (PFloat (S754_zero false)) = false /\
   Py.truthy (PFloat (S754_zero true)) = false) /\
  chat request st = (Ok {| response := clarification |}, st1) /\
  exists new, sent st1 = (sent st ++ new)%list /\ quiet new.
Proof.
  intros Hdetect Hweather Hpresent Hfalsy.
  split; [repeat split|].
  apply (chat_clarifies request st st1 d Hdetect Hweather).
  unfold Dict.get.
  destruct Hpresent as [-> | ->]; rewrite Hfalsy; cbn [negb orb];
    [reflexivity | apply orb_true_r].
Qed.

(** C5: when the detected intent is a weather query with truthy coordinates
    and fetch_weather raises, chat catches the exception and returns the
    apology sentence naming the intent's location; the failed fetch is the
    only request to the forecast endpoint, it is not tried again. *)
Theorem chat_apologises_when_fetch_fails
    (request : ChatRequest) (st st1 st2 : state RT) (d : list (string * pyval))
    (e : exn) :
  detect_intent (message request) st = (Ok (PDict d), st1) ->
  Py.truthy (Dict.get "is_weather_query" (PBool false) d) = true ->
  Py.truthy (Dict.get "latitude" PNone d) = true ->
  Py.truthy (Dict.get "longitude" PNone d) = true ->
  fetch_weather (Dict.get "latitude" PNone d) (Dict.get "longitude" PNone d)
    (Dict.get "parameters" (PList [PStr "temperature"]) d) st1 = (Raise e, st2) ->
  chat request st =
    (Ok {| response :=
             "I'm sorry, I couldn't fetch the weather data for "
             ++ Py.str float_repr (Dict.get "location" (PStr "Unknown") d)
             ++ " at the moment. Please try again later." |}, st2) /\
  weather_calls st2 <= S (weather_calls st) /\
  llm_calls st2 = llm_calls st1.
Proof.
  intros Hdetect Hweather Hlat Hlon Hfetch. split.
  - rewrite (chat_after_detect _ _ _ _ Hdetect), (chat_intent_weather _ _ Hweather).
    unfold chat_weather, bind, attempt. rewrite Hlat, Hlon. cbn [negb orb].
    rewrite Hfetch. reflexivity.
  - destruct (detect_intent_log _ _ _ _ Hdetect) as (req & Hq & Hs).
    rewrite <- (weather_calls_quiet _ _ _ Hq Hs).
    unfold weather_calls, llm_calls.
    destruct (fetch_weather_log _ _ _ _ _ _ Hfetch) as [-> | (params & ->)].
    + split; [lia | reflexivity].
    + rewrite !filter_app, !length_app. simpl. split; lia.
Qed.

Lemma chat_intent_default_parameters
    (request : ChatRequest) (st : state RT) (d : list (string * pyval)) :
  Dict.lookup "parameters" d = None ->
  Py.truthy (Dict.get "is_weather_query" (PBool false) d) = true ->
  Py.truthy (Dict.get "latitude" PNone d) = true ->
  Py.truthy (Dict.get "longitude" PNone d) = true ->
  chat_intent request (PDict d) st =
    match fetch_weather (Dict.get "latitude" PNone d) (Dict.get "longitude" PNone d)
            (PList [PStr "temperature"]) st with
    | (Raise _, st1) =>
        (Ok {| response := fetch_apology (Dict.get "location" (PStr "Unknown") d) |}, st1)
    | (Ok weather_data, st1) =>
        match format_response (Dict.get "location" (PStr "Unknown") d) weather_data
                (PList [PStr "temperature"]) st1 with
        | (Ok text, st2) => (Ok {| response := text |}, st2)
        | (Raise e, st2) => (Raise e, st2)
        end
    end.
Proof.
  intros Hparams Hweather Hlat Hlon.
  rewrite (chat_intent_weather _ _ Hweather).
  unfold chat_weather, bind, attempt, ret. rewrite Hlat, Hlon. cbn [negb orb].
  unfold Dict.get at 3 5. rewrite Hparams.
  destruct (fetch_weather _ _ _ st) as [[weather_data|e] st1]; [|reflexivity].
  destruct (format_response _ _ _ st1) as [[text|e] st2]; reflexivity.
Qed.

(** C8: when the detected weather intent has no parameters field (and has
    usable coordinates, so that the fetch takes place), the list passed
    both to fetch_weather and to format_response is exactly
    [["temperature"]]. *)
Theorem chat_default_parameters
    (request : ChatRequest) (st st1 : state RT) (d : list (string * pyval)) :
  detect_intent (message request) st = (Ok (PDict d), st1) ->
  Py.truthy (Dict.get "is_weather_query" (PBool false) d) = true ->
  Dict.lookup "parameters" d = None ->
  Py.truthy (Dict.get "latitude" PNone d) = true ->
  Py.truthy (Dict.get "longitude" PNone d) = true ->
  chat request st =
    match fetch_weather (Dict.get "latitude" PNone d) (Dict.get "longitude" PNone d)
            (PList [PStr "temperature"]) st1 with
    | (Raise _, st2) =>
        (Ok {| response := fetch_apology (Dict.get "location" (PStr "Unknown") d) |}, st2)
    | (Ok weather_data, st2) =>
        match format_response (Dict.get "location" (PStr "Unknown") d) weather_data
                (PList [PStr "temperature"]) st2 with
        | (Ok text, st3) => (Ok {| response := text |}, st3)
        | (Raise _, st3) => (Raise server_error, st3)
        end
    end.
Proof.
  intros Hdetect Hweather Hparams Hlat Hlon.
  rewrite (chat_after_detect _ _ _ _ Hdetect).
  rewrite (chat_intent_default_parameters _ _ _ Hparams Hweather Hlat Hlon).
  destruct (fetch_weather _ _ _ st1) as [[weather_data|e] st2]; [|reflexivity].
  destruct (format_response _ _ _ st2) as [[text|e] st3]; reflexivity.
Qed.

End Chat.

(** ** The pipeline on the scripted runtime *)

(** C1: handle_non_weather_query does not do what the claim says.  With a
    model that is up and would answer the message with a joke,
    handle_non_weather_query sends nothing and returns the apology: the
    keyword [temperature] of line 192 is not a parameter of call_llm, so
    the call raises TypeError inside the try block. *)
Theorem handle_non_weather_query_never_asks_model :
  exists (llm_response : pyval) (st' : state Demo.runtime),
    call_llm (general_messages "Tell me a joke")
      (Demo.answering Demo.joke []) = (Ok llm_response, st') /\
    message_content llm_response = Ok Demo.joke /\
    handle_non_weather_query "Tell me a joke" (Demo.answering Demo.joke [])
    = (Ok "I'm sorry, I couldn't process your request at the moment. Please try again.",
       Demo.answering Demo.joke []) /\
    sent (Demo.answering Demo.joke []) = [].
Proof.
  eexists. eexists. split; [vm_compute; reflexivity|].
  split; [reflexivity|]. split; reflexivity.
Qed.

Lemma chat_non_weather_uses_general_handler_witness :
  exists text st2 new,
    handle_non_weather_query "Tell me a joke"
      (Demo.detected "Tell me a joke"
         (Demo.answering (Demo.dumps Demo.intent_general) [Demo.ok (Demo.completion Demo.joke)]))
    = (Ok text, st2) /\
    chat (Demo.ask "Tell me a joke")
      (Demo.answering (Demo.dumps Demo.intent_general) [Demo.ok (Demo.completion Demo.joke)])
    = (Ok {| response := text |}, st2) /\
    sent st2 = ([] ++ new)%list /\ quiet new.
Proof.
  apply (chat_non_weather_uses_general_handler (RT := Demo.runtime)
           (Demo.ask "Tell me a joke")
           (Demo.answering (Demo.dumps Demo.intent_general)
              [Demo.ok (Demo.completion Demo.joke)])
           _ (Demo.entries Demo.intent_general)).
  - vm_compute. reflexivity.
  - reflexivity.
Defined.

Lemma detect_intent_parses_outer_braces_witness :
  json_candidate ("Here you are: " ++ "{" ++ Demo.inner_oslo ++ "}" ++ " Anything else?")
  = Ok ("{" ++ Demo.inner_oslo ++ "}") /\
  detect_intent "How warm is Oslo?" (Demo.answering Demo.wrapped_oslo [])
  = (Ok Demo.intent_oslo,
     Demo.detected "How warm is Oslo?" (Demo.answering Demo.wrapped_oslo [])).
Proof.
  apply (detect_intent_parses_outer_braces (RT := Demo.runtime)
           "How warm is Oslo?" (Demo.answering Demo.wrapped_oslo []) _
           (Demo.completion Demo.wrapped_oslo)
           "Here you are: " Demo.inner_oslo " Anything else?").
  - vm_compute. reflexivity.
  - vm_compute. reflexivity.
  - reflexivity.
  - reflexivity.
Defined.

Lemma detect_intent_fails_open_witness :
  detect_intent "How warm is Oslo?" (Demo.start [TransportError])
  = (Ok (PDict [("is_weather_query", PBool false)]),
     Demo.detected "How warm is Oslo?" (Demo.start [TransportError])).
Proof.
  refine (proj1 (detect_intent_fails_open (RT := Demo.runtime)
           "How warm is Oslo?" (Demo.start [TransportError])
           (Demo.detected "How warm is Oslo?" (Demo.start [TransportError]))
           RequestError _)).
  vm_compute. reflexivity.
Defined.

Lemma map_param_total_idempotent_witness :
  map_param "clouds" = "cloud_cover" /\ map_param "Dew Point" = "Dew Point".
Proof.
  destruct map_param_total_idempotent as (_ & Hkey & Hpass & _).
  split.
  - apply Hkey. unfold PARAM_MAPPING. do 8 right. left. reflexivity.
  - apply Hpass. reflexivity.
Defined.

Lemma chat_missing_coordinates_witness :
  chat (Demo.ask "Weather in Atlantis?")
    (Demo.answering (Demo.dumps Demo.intent_nowhere) [])
  = (Ok {| response := clarification |},
     Demo.detected "Weather in Atlantis?"
       (Demo.answering (Demo.dumps Demo.intent_nowhere) [])) /\
  exists new,
    sent (Demo.detected "Weather in Atlantis?"
            (Demo.answering (Demo.dumps Demo.intent_nowhere) []))
    = ([] ++ new)%list /\ quiet new.
Proof.
  apply (chat_missing_coordinates (RT := Demo.runtime)
           (Demo.ask "Weather in Atlantis?")
           (Demo.answering (Demo.dumps Demo.intent_nowhere) [])
           _ (Demo.entries Demo.intent_nowhere)).
  - vm_compute. reflexivity.
  - reflexivity.
  - left. reflexivity.
Defined.

Lemma chat_zero_coordinates_witness :
  chat (Demo.ask "Weather in Quito?")
    (Demo.answering (Demo.dumps Demo.intent_quito) [Demo.ok Demo.forecast_paris])
  = (Ok {| response := clarification |},
     Demo.detected "Weather in Quito?"
       (Demo.answering (Demo.dumps Demo.intent_quito) [Demo.ok Demo.forecast_paris])).
Proof.
  refine (proj1 (proj2 (chat_zero_coordinates (RT := Demo.runtime)
           (Demo.ask "Weather in Quito?")
           (Demo.answering (Demo.dumps Demo.intent_quito) [Demo.ok Demo.forecast_paris])
           (Demo.detected "Weather in Quito?"
              (Demo.answering (Demo.dumps Demo.intent_quito)
                 [Demo.ok Demo.forecast_paris]))
           (Demo.entries Demo.intent_quito) (PInt 0) _ _ _ _))).
  - vm_compute. reflexivity.
  - reflexivity.
  - left. reflexivity.
  - reflexivity.
Defined.

Lemma chat_apologises_when_fetch_fails_witness :
  chat (Demo.ask "Weather in Paris?")
    (Demo.answering (Demo.dumps Demo.intent_paris) [Response 503 "unavailable"])
  = (Ok {| response :=
             "I'm sorry, I couldn't fetch the weather data for Paris at the moment. Please try again later." |},
     snd (fetch_weather (PInt 48) (PInt 2) (PList [PStr "temperature"; PStr "Humidity"])
            (Demo.detected "Weather in Paris?"
               (Demo.answering (Demo.dumps Demo.intent_paris)
                  [Response 503 "unavailable"])))).
Proof.
  refine (proj1 (chat_apologises_when_fetch_fails (RT := Demo.runtime)
           (Demo.ask "Weather in Paris?")
           (Demo.answering (Demo.dumps Demo.intent_paris) [Response 503 "unavailable"])
           (Demo.detected "Weather in Paris?"
              (Demo.answering (Demo.dumps Demo.intent_paris)
                 [Response 503 "unavailable"]))
           _ (Demo.entries Demo.intent_paris) HTTPStatusError _ _ _ _ _)).
  - vm_compute. reflexivity.
  - reflexivity.
  - reflexivity.
  - reflexivity.
  - vm_compute. reflexivity.
Defined.

Lemma chat_default_parameters_witness :
  fst (chat (Demo.ask "How warm is Oslo?")
         (Demo.answering (Demo.dumps Demo.intent_oslo) [Demo.ok Demo.forecast_paris]))
  = Ok {| response := "Weather data for Oslo: {'temperature_2m': 15}" |}.
Proof.
  rewrite (chat_default_parameters (RT := Demo.runtime)
             (Demo.ask "How warm is Oslo?")
             (Demo.answering (Demo.dumps Demo.intent_oslo) [Demo.ok Demo.forecast_paris])
             (Demo.detected "How warm is Oslo?"
                (Demo.answering (Demo.dumps Demo.intent_oslo)
                   [Demo.ok Demo.forecast_paris]))
             (Demo.entries Demo.intent_oslo)).
  - vm_compute. reflexivity.
  - vm_compute. reflexivity.
  - reflexivity.
  - reflexivity.
  - reflexivity.
  - reflexivity.
Defined.

Lemma format_response_falls_back_witness :
  format_response (PStr "Paris") Demo.forecast_paris
    (PList [PStr "temperature"; PStr "Humidity"; PStr "uv_index"])
    (Demo.start [TransportError])
  = (Ok "Weather data for Paris: {'temperature_2m': 15, 'relative_humidity_2m': 60}",
     snd (format_response (PStr "Paris") Demo.forecast_paris
            (PList [PStr "temperature"; PStr "Humidity"; PStr "uv_index"])
            (Demo.start [TransportError]))).
Proof.
  refine (proj1 (format_response_falls_back (RT := Demo.runtime)
           (PStr "Paris")
           (PList [PStr "temperature"; PStr "Humidity"; PStr "uv_index"])
           (Demo.entries Demo.forecast_paris)
           [("time", PStr "2024-05-01T12:00"); ("temperature_2m", PInt 15);
            ("relative_humidity_2m", PInt 60)]
           [("temperature_2m", PInt 15); ("relative_humidity_2m", PInt 60)]
           [PStr "temperature"; PStr "Humidity"; PStr "uv_index"]
           (Demo.start [TransportError])
           (snd (format_response (PStr "Paris") Demo.forecast_paris
                   (PList [PStr "temperature"; PStr "Humidity"; PStr "uv_index"])
                   (Demo.start [TransportError])))
           RequestError _ _ _ _)).
  - reflexivity.
  - reflexivity.
  - reflexivity.
  - vm_compute. reflexivity.
Defined.

(** The two end-to-end scenarios of the specification, and the model text
    with braces in its prose. *)
Example chat_joke :
  fst (chat (Demo.ask "Tell me a joke")
         (Demo.answering (Demo.dumps Demo.intent_general)
            [Demo.ok (Demo.completion Demo.joke)]))
  = Ok {| response := general_apology |}.
Proof. vm_compute. reflexivity. Qed.

Example chat_paris :
  fst (chat (Demo.ask "Weather in Paris?")
         (Demo.answering (Demo.dumps Demo.intent_paris)
            [Demo.ok Demo.forecast_paris;
             Demo.ok (Demo.completion Demo.paris_sentence)]))
  = Ok {| response := "It is 15 degrees in Paris." |}.
Proof. vm_compute. reflexivity. Qed.

Example detect_intent_chatty :
  Spec.first_balanced Demo.chatty_answer = Some (Demo.dumps Demo.intent_paris) /\
  Demo.loads (Demo.dumps Demo.intent_paris) = Some Demo.intent_paris /\
  fst (detect_intent "Weather in Paris?" (Demo.answering Demo.chatty_answer []))
  = Ok no_weather_intent.
Proof. repeat split; vm_compute; reflexivity. Qed.

(** * Further properties of the pipeline *)

(** ** The parameter mapping and the loop of [fetch_weather] *)

Section MappingMore.

(** The look-up ignores the case of the name: two spellings of a known
    parameter get the same provider code. *)
Theorem map_param_case_insensitive (p q : string) :
  Str.lower p = Str.lower q ->
  Dict.lookup (Str.lower p) PARAM_MAPPING <> None ->
  map_param p = map_param q.
Proof.
  intros E H. rewrite !map_param_lookup, <- E.
  destruct (Dict.lookup (Str.lower p) PARAM_MAPPING); [reflexivity | contradiction].
Qed.

(** The mapping returns either the name it was given or one of the provider
    codes of PARAM_MAPPING. *)
Theorem map_param_image (p : string) :
  map_param p = p \/ exists k, In (k, map_param p) PARAM_MAPPING.
Proof.
  rewrite map_param_lookup.
  destruct (Dict.lookup (Str.lower p) PARAM_MAPPING) as [code|] eqn:E.
  - right. exists (Str.lower p). now apply lookup_In.
  - now left.
Qed.

Lemma api_params_map (names : list string) :
  api_params (map PStr names) = Ok (map map_param names).
Proof.
  induction names as [|p names IH]; [reflexivity|].
  cbn [map api_params mapped_param res_bind]. rewrite IH. reflexivity.
Qed.

(** The loop of lines 116-119 either maps every item, in order, when all
    items are strs, or raises AttributeError at an item that is not a str. *)
Theorem api_params_cases (items : list pyval) :
  (exists names, items = map PStr names /\
                 api_params items = Ok (map map_param names)) \/
  (exists item, In item items /\ Shape.is_str item = false /\
                api_params items = Raise AttributeError).
Proof.
  induction items as [|item rest IH].
  - left. exists []. split; reflexivity.
  - destruct item as [| b | z | f | p | l | d];
      try (right; eexists; split; [left; reflexivity | split; reflexivity]).
    destruct IH as [(names & -> & _) | (bad & Hin & Hbad & Hraise)].
    + left. exists (p :: names). split; [reflexivity|].
      exact (api_params_map (p :: names)).
    + right. exists bad. split; [now right|]. split; [exact Hbad|].
      cbn [api_params mapped_param res_bind]. rewrite Hraise. reflexivity.
Qed.

Lemma api_params_bad (item : pyval) (items : list pyval) :
  In item items -> Shape.is_str item = false ->
  api_params items = Raise AttributeError.
Proof.
  intros Hin Hbad. induction items as [|x rest IH]; [destruct Hin|].
  destruct Hin as [-> | Hin].
  - destruct item; try reflexivity. discriminate Hbad.
  - destruct x; try reflexivity.
    cbn [api_params mapped_param res_bind]. rewrite (IH Hin). reflexivity.
Qed.

(** A name of one character is never a key of PARAM_MAPPING. *)
Lemma map_param_char (c : ascii) : map_param (String c "") = String c "".
Proof.
  rewrite map_param_lookup. cbn [Str.lower].
  unfold PARAM_MAPPING, Dict.lookup.
  repeat match goal with
         | |- context [String.eqb (String ?a "") (String ?b (String ?x ?y))] =>
             replace (String.eqb (String a "") (String b (String x y))) with false
               by (cbn [String.eqb]; destruct (Ascii.eqb a b); reflexivity)
         end.
  reflexivity.
Qed.

Lemma api_params_chars (s : string) :
  api_params (map PStr (Str.chars s)) = Ok (Str.chars s).
Proof.
  rewrite api_params_map. f_equal.
  induction s as [|c s IH]; [reflexivity|].
  cbn [Str.chars map]. rewrite map_param_char, IH. reflexivity.
Qed.

End MappingMore.

Lemma map_param_case_insensitive_witness :
  map_param "HUMIDITY" = map_param "Humidity".
Proof.
  apply map_param_case_insensitive.
  - reflexivity.
  - discriminate.
Defined.

(** ** Round trips: [call_llm] and [fetch_weather] *)

Section RoundTrips.

Context {RT : Runtime}.

Lemma http_read (req : request) (st : state RT) :
  bind (http req) (fun response =>
    bind (raise_for_status response) (fun _ => response_json response)) st
  = (read_outcome (fst (send req (world st))), after req st).
Proof.
  unfold bind, http, after, read_outcome.
  destruct (send req (world st)) as [[|code text] w]; cbn [fst snd]; [reflexivity|].
  unfold raise_for_status, response_json, ret, raise. cbn [fst snd].
  destruct ((200 <=? code) && (code <? 300))%Z; [|reflexivity].
  destruct (json_loads text); reflexivity.
Qed.

Lemma call_llm_read (messages : pyval) (st : state RT) :
  call_llm messages st =
    (read_outcome (fst (send (llm_request messages) (world st))),
     after (llm_request messages) st).
Proof. exact (http_read (llm_request messages) st). Qed.

(** call_llm sends exactly one request, the POST of the model name
    [gpt-5-nano] and the messages with the bearer credential, and its
    result is read off the answer: the client's error, HTTPStatusError
    outside 200-299, the decoded body, or JSONDecodeError. *)
Theorem call_llm_round_trip (messages : pyval) (st : state RT) :
  call_llm messages st =
    (read_outcome (fst (send (llm_request messages) (world st))),
     {| world := snd (send (llm_request messages) (world st));
        sent := (sent st ++ [POST AIPIPE_URL
                   (PDict [("Authorization", PStr ("Bearer " ++ OPENAI_API_KEY));
                           ("Content-Type", PStr "application/json")])
                   (PDict [("model", PStr "gpt-5-nano");
                           ("messages", messages)])])%list |}).
Proof. exact (call_llm_read messages st). Qed.

Lemma fetch_weather_items (latitude longitude parameters : pyval)
    (items : list pyval) (codes : list string) (st : state RT) :
  Py.iter parameters = Ok items ->
  api_params items = Ok codes ->
  fetch_weather latitude longitude parameters st =
    (read_outcome (fst (send (weather_request latitude longitude codes) (world st))),
     after (weather_request latitude longitude codes) st).
Proof.
  intros Hiter Hcodes.
  pose proof (http_read (weather_request latitude longitude codes) st) as H.
  unfold fetch_weather, bind at 1 2, lift, try_except.
  rewrite Hiter, Hcodes. fold (weather_request latitude longitude codes).
  rewrite H.
  destruct (read_outcome _); reflexivity.
Qed.

(** On a list of strs fetch_weather sends exactly one request, the GET to
    the forecast URL whose [current] parameter is the comma-joined mapped
    names in the order given, and returns what the answer reads as; a
    failure is re-raised unchanged. *)
Theorem fetch_weather_round_trip
    (latitude longitude : pyval) (names : list string) (st : state RT) :
  fetch_weather latitude longitude (PList (map PStr names)) st =
    (read_outcome
       (fst (send (weather_request latitude longitude (map map_param names))
               (world st))),
     {| world := snd (send (weather_request latitude longitude
                              (map map_param names)) (world st));
        sent := (sent st ++
                 [GET OPENMETEO_URL
                    (PDict [("latitude", latitude); ("longitude", longitude);
                            ("current",
                             PStr (Str.join "," (map map_param names)))])])%list |}).
Proof.
  apply (fetch_weather_items _ _ _ (map PStr names));
    [reflexivity | apply api_params_map].
Qed.

(** When [parameters] is a str instead of a list, the loop visits its
    characters: the forecast is asked for each character as a parameter of
    its own. *)
Theorem fetch_weather_str_parameters
    (latitude longitude : pyval) (s : string) (st : state RT) :
  fetch_weather latitude longitude (PStr s) st =
    (read_outcome
       (fst (send (weather_request latitude longitude (Str.chars s)) (world st))),
     after (weather_request latitude longitude (Str.chars s)) st).
Proof.
  apply (fetch_weather_items _ _ _ (map PStr (Str.chars s)));
    [reflexivity | apply api_params_chars].
Qed.

(** When the list of parameters holds an item that is not a str,
    fetch_weather raises AttributeError and sends nothing. *)
Theorem fetch_weather_bad_item
    (latitude longitude item : pyval) (items : list pyval) (st : state RT) :
  In item items ->
  Shape.is_str item = false ->
  fetch_weather latitude longitude (PList items) st = (Raise AttributeError, st).
Proof.
  intros Hin Hbad. unfold fetch_weather, bind, lift. cbn [Py.iter].
  rewrite (api_params_bad _ _ Hin Hbad). reflexivity.
Qed.

End RoundTrips.

Lemma fetch_weather_bad_item_witness :
  fetch_weather (PInt 48) (PInt 2) (PList [PStr "temperature"; PInt 7])
    (Demo.start [Demo.ok Demo.forecast_paris])
  = (Raise AttributeError, Demo.start [Demo.ok Demo.forecast_paris]).
Proof.
  apply (fetch_weather_bad_item (RT := Demo.runtime) _ _ (PInt 7)).
  - right. left. reflexivity.
  - reflexivity.
Defined.

(** ** Intent detection: the text handed to the parser *)

Section CandidateFacts.

Lemma find_char_split (c : ascii) (s : string) :
  forall i, Str.find (String c "") s = Some i ->
  exists pre rest,
    s = pre ++ String c rest /\ String.length pre = i /\
    Str.contains (String c "") pre = false.
Proof.
  induction s as [|b s IH]; intros i H.
  - discriminate H.
  - rewrite find_char_cons in H. destruct (Ascii.eqb c b) eqn:E.
    + apply Ascii.eqb_eq in E. subst b. injection H as <-.
      exists "", s. repeat split.
    + destruct (Str.find (String c "") s) as [k|] eqn:Hs; [|discriminate H].
      injection H as <-. destruct (IH k eq_refl) as (pre & rest & -> & Hlen & Hpre).
      exists (String b pre), rest. split; [reflexivity|]. split; [simpl; now rewrite Hlen|].
      unfold Str.contains in *. rewrite find_char_cons, E.
      destruct (Str.find (String c "") pre); [discriminate Hpre | reflexivity].
Qed.

Lemma rfind_char_split (c : ascii) (s : string) :
  forall j, Str.rfind (String c "") s = Some j ->
  exists body post,
    s = body ++ String c post /\ String.length body = j /\
    Str.contains (String c "") post = false.
Proof.
  induction s as [|b s IH]; intros j H.
  - discriminate H.
  - rewrite rfind_char_cons in H.
    destruct (Str.rfind (String c "") s) as [k|] eqn:Hs.
    + injection H as <-. destruct (IH k eq_refl) as (body & post & -> & Hlen & Hpost).
      exists (String b body), post. split; [reflexivity|].
      split; [simpl; now rewrite Hlen | exact Hpost].
    + destruct (Ascii.eqb c b) eqn:E; [|discriminate H].
      apply Ascii.eqb_eq in E. subst b. injection H as <-.
      exists "", s. split; [reflexivity|]. split; [reflexivity|].
      clear IH. unfold Str.contains.
      induction s as [|a s IHs]; [reflexivity|].
      rewrite rfind_char_cons in Hs. rewrite find_char_cons.
      destruct (Str.rfind (String c "") s); [discriminate Hs|].
      destruct (Ascii.eqb c a); [discriminate Hs|].
      specialize (IHs eq_refl).
      destruct (Str.find (String c "") s); [discriminate IHs | reflexivity].
Qed.

Lemma rfind_none_contains (c : ascii) (s : string) :
  Str.rfind (String c "") s = None -> Str.contains (String c "") s = false.
Proof.
  unfold Str.contains. induction s as [|a s IH]; intros H; [reflexivity|].
  rewrite rfind_char_cons in H. rewrite find_char_cons.
  destruct (Str.rfind (String c "") s); [discriminate H|].
  destruct (Ascii.eqb c a); [discriminate H|].
  specialize (IH eq_refl).
  destruct (Str.find (String c "") s); [discriminate IH | reflexivity].
Qed.

Lemma append_split (pre : string) :
  forall body a b,
    pre ++ a = body ++ b -> String.length pre <= String.length body ->
    exists m, body = pre ++ m /\ a = m ++ b.
Proof.
  induction pre as [|x pre IH]; intros body a b H Hlen.
  - exists body. split; [reflexivity | exact H].
  - destruct body as [|y body]; [simpl in Hlen; lia|].
    simpl in H. injection H as -> H. simpl in Hlen.
    destruct (IH body a b H ltac:(lia)) as (m & -> & ->).
    exists m. split; reflexivity.
Qed.

Lemma substring_none (s : string) : forall n, substring n 0 s = "".
Proof.
  induction s as [|b s IH]; intros [|n]; simpl; try reflexivity. apply IH.
Qed.

(** What lines 101-104 hand to the parser, case by case: the whole text
    when it has no opening brace; ValueError when it has an opening brace
    but no closing one; the braces and what lies between the first opening
    and the last closing brace; or the empty text when the last closing
    brace comes before the first opening one. *)
Theorem json_candidate_cases (content : string) :
  (Str.contains "{" content = false /\ json_candidate content = Ok content) \/
  (Str.contains "{" content = true /\ Str.contains "}" content = false /\
   json_candidate content = Raise ValueError) \/
  (exists pre mid post,
     content = pre ++ "{" ++ mid ++ "}" ++ post /\
     Str.contains "{" pre = false /\ Str.contains "}" post = false /\
     json_candidate content = Ok ("{" ++ mid ++ "}")) \/
  (exists i j,
     Str.find "{" content = Some i /\ Str.rfind "}" content = Some j /\
     j < i /\ json_candidate content = Ok "").
Proof.
  destruct (Str.contains "{" content) eqn:Hopen.
  2:{ left. split; [reflexivity|]. unfold json_candidate. now rewrite Hopen. }
  right.
  assert (Hfind : exists i, Str.find "{" content = Some i).
  { unfold Str.contains in Hopen.
    destruct (Str.find "{" content) as [i|]; [eauto | discriminate Hopen]. }
  destruct Hfind as (i & Hi).
  destruct (Str.rfind "}" content) as [j|] eqn:Hj.
  2:{ left. split; [reflexivity|]. split; [now apply rfind_none_contains|].
      unfold json_candidate. now rewrite Hopen, Hi, Hj. }
  right.
  destruct (find_char_split _ _ _ Hi) as (pre & rest & E1 & Hlen1 & Hpre).
  destruct (rfind_char_split _ _ _ Hj) as (body & post & E2 & Hlen2 & Hpost).
  destruct (Nat.lt_ge_cases j i) as [Hlt | Hge].
  - right. exists i, j. repeat split; try assumption.
    unfold json_candidate, Str.slice. rewrite Hopen, Hi, Hj.
    replace (j + 1 - i) with 0 by lia. now rewrite substring_none.
  - left.
    assert (E : pre ++ String "{" rest = body ++ String "}" post) by congruence.
    destruct (append_split _ _ _ _ E ltac:(lia)) as (m & -> & Hm).
    destruct m as [|x m]; [discriminate Hm|].
    simpl in Hm. injection Hm as <- ->.
    exists pre, m, post. split; [exact E1|]. split; [exact Hpre|].
    split; [exact Hpost|]. rewrite E1.
    exact (json_candidate_shape pre m post Hpre Hpost).
Qed.

End CandidateFacts.

Section DetectionMore.

Context {RT : Runtime}.

Lemma detect_intent_after_content
    (user_input content : string) (st st1 : state RT) (llm_response : pyval) :
  call_llm (detect_messages user_input) st = (Ok llm_response, st1) ->
  message_content llm_response = Ok content ->
  detect_intent user_input st =
    (Ok match res_bind (json_candidate content) loads with
        | Ok intent => intent
        | Raise _ => no_weather_intent
        end, st1).
Proof.
  intros Hcall Hcontent.
  unfold detect_intent, try_except, detect_intent_try, bind, lift, ret.
  rewrite Hcall, Hcontent.
  destruct (json_candidate content) as [text|e]; [|reflexivity].
  cbn [res_bind]. destruct (loads text); reflexivity.
Qed.

(** When the model's text has no opening brace, detect_intent parses the
    whole stripped text: its result is whatever JSON value the text
    denotes, a dict or not, and the non-weather intent when the text is
    not JSON. *)
Theorem detect_intent_no_brace
    (user_input content : string) (st st1 : state RT) (llm_response : pyval) :
  call_llm (detect_messages user_input) st = (Ok llm_response, st1) ->
  message_content llm_response = Ok content ->
  Str.contains "{" content = false ->
  detect_intent user_input st =
    (Ok match json_loads content with
        | Some intent => intent
        | None => no_weather_intent
        end, st1).
Proof.
  intros Hcall Hcontent Hopen.
  rewrite (detect_intent_after_content _ _ _ _ _ Hcall Hcontent).
  unfold json_candidate. rewrite Hopen. cbn [res_bind]. unfold loads.
  destruct (json_loads content); reflexivity.
Qed.

(** When the model's text has an opening brace but no closing brace,
    detect_intent returns the non-weather intent: the parser is not even
    consulted. *)
Theorem detect_intent_unclosed_brace
    (user_input content : string) (st st1 : state RT) (llm_response : pyval) :
  call_llm (detect_messages user_input) st = (Ok llm_response, st1) ->
  message_content llm_response = Ok content ->
  Str.contains "{" content = true ->
  Str.contains "}" content = false ->
  detect_intent user_input st = (Ok no_weather_intent, st1).
Proof.
  intros Hcall Hcontent Hopen Hclose.
  rewrite (detect_intent_after_content _ _ _ _ _ Hcall Hcontent).
  unfold json_candidate. rewrite Hopen, (rfind_char_none _ _ Hclose).
  destruct (Str.find "{" content); reflexivity.
Qed.

Lemma detect_intent_after (user_input : string) (st : state RT) :
  snd (detect_intent user_input st) =
    after (llm_request (detect_messages user_input)) st.
Proof.
  unfold detect_intent, try_except, detect_intent_try, bind, lift, ret.
  rewrite call_llm_read.
  destruct (read_outcome _) as [llm_response|e]; [|reflexivity].
  destruct (message_content llm_response) as [content|e]; [|reflexivity].
  destruct (json_candidate content) as [text|e]; [|reflexivity].
  destruct (loads text); reflexivity.
Qed.

(** Whatever happens, detect_intent sends exactly one request: the POST of
    the analyzer's system prompt followed by the user's message. *)
Theorem detect_intent_one_request (user_input : string) (st : state RT) :
  snd (detect_intent user_input st) =
    {| world := snd (send (llm_request (detect_messages user_input)) (world st));
       sent := (sent st ++
                [llm_request
                   (PList [role_message "system" detect_system_prompt;
                           role_message "user" user_input])])%list |}.
Proof. exact (detect_intent_after user_input st). Qed.

End DetectionMore.

Lemma detect_intent_no_brace_witness :
  detect_intent "Hello" (Lab.answering "42" [])
  = (Ok (PInt 42), snd (call_llm (detect_messages "Hello") (Lab.answering "42" []))).
Proof.
  apply (detect_intent_no_brace (RT := Lab.runtime) "Hello" "42" _ _
           (Demo.completion "42")).
  - vm_compute. reflexivity.
  - reflexivity.
  - reflexivity.
Defined.

Lemma detect_intent_unclosed_brace_witness :
  detect_intent "Hello" (Lab.answering "{ unfinished" [])
  = (Ok no_weather_intent,
     snd (call_llm (detect_messages "Hello") (Lab.answering "{ unfinished" []))).
Proof.
  apply (detect_intent_unclosed_brace (RT := Lab.runtime) "Hello" "{ unfinished" _ _
           (Demo.completion "{ unfinished")).
  - vm_compute. reflexivity.
  - reflexivity.
  - reflexivity.
  - reflexivity.
Defined.

(** ** [format_response]: the filtered data and the answer *)

Section FormattingMore.

Context {RT : Runtime}.

Lemma lookup_None_keys {V} (k : string) (d : list (string * V)) :
  Dict.lookup k d = None -> ~ In k (map fst d).
Proof.
  induction d as [|[k' v'] d IH]; simpl; [tauto|].
  destruct (String.eqb k k') eqn:E; [discriminate|].
  intros H [Heq | Hin]; [|exact (IH H Hin)].
  subst k'. rewrite String.eqb_refl in E. discriminate E.
Qed.

Lemma set_keys {V} (k : string) (v : V) (d : list (string * V)) :
  map fst (Dict.set k v d) =
  if Dict.mem k d then map fst d else (map fst d ++ [k])%list.
Proof.
  unfold Dict.mem. induction d as [|[k' v'] d IH]; simpl; [reflexivity|].
  destruct (String.eqb k k') eqn:E; simpl; [reflexivity|].
  rewrite IH. destruct (Dict.lookup k d); reflexivity.
Qed.

Lemma set_keys_NoDup {V} (k : string) (v : V) (d : list (string * V)) :
  NoDup (map fst d) -> NoDup (map fst (Dict.set k v d)).
Proof.
  intros H. rewrite set_keys. unfold Dict.mem.
  destruct (Dict.lookup k d) eqn:E; [exact H|].
  apply NoDup_app; [exact H | repeat constructor; intros [] |].
  intros x Hx [<- | []]. exact (lookup_None_keys _ _ E Hx).
Qed.

Lemma collect_keys_NoDup (c : list (string * pyval)) (items : list pyval) :
  forall acc data_dict,
    collect (PDict c) items acc = Ok data_dict ->
    NoDup (map fst acc) -> NoDup (map fst data_dict).
Proof.
  induction items as [|item rest IH]; intros acc data_dict H Hacc.
  - injection H as <-. exact Hacc.
  - destruct item; try discriminate H.
    cbn [collect mapped_param res_bind Py.contains] in H. unfold Dict.mem in H.
    destruct (Dict.lookup (map_param s) c) as [v|] eqn:E.
    + cbn [Py.getitem res_bind] in H. rewrite E in H. cbn [res_bind] in H.
      apply (IH _ _ H). now apply set_keys_NoDup.
    + exact (IH _ _ H Hacc).
Qed.

(** The data the loop of lines 144-148 collects from a dict: no key occurs
    twice, and every entry is an entry of the current-value mapping under
    the mapped key of a requested parameter. *)
Theorem collect_filters_current
    (c data_dict : list (string * pyval)) (items : list pyval) :
  collect (PDict c) items [] = Ok data_dict ->
  NoDup (map fst data_dict) /\
  (forall k v, Dict.lookup k data_dict = Some v ->
               Dict.lookup k c = Some v /\ requested k items = true).
Proof.
  intros H. split.
  - apply (collect_keys_NoDup _ _ _ _ H). constructor.
  - intros k v Hk. rewrite (collect_lookup _ _ _ _ H k) in Hk. cbn [Dict.lookup] in Hk.
    destruct (requested k items); [|discriminate Hk].
    destruct (Dict.lookup k c); [|discriminate Hk]. now split.
Qed.

Lemma format_response_ok
    (location : pyval) (w c : list (string * pyval)) (names : list string)
    (st : state RT) :
  Dict.get "current" (PDict []) w = PDict c ->
  exists text st',
    format_response location (PDict w) (PList (map PStr names)) st = (Ok text, st').
Proof.
  intros Hcur. destruct (collect_total c names []) as (data_dict & Hcollect).
  unfold format_response, bind at 1 2 3 4, lift, try_except. cbn [Py.get Py.iter].
  rewrite Hcur, Hcollect. unfold ret.
  destruct (format_response_try _ st) as [[text|e] st']; eauto.
Qed.

(** On a dict payload whose current-value mapping is a dict (or absent) and
    a list of strs, format_response never raises: it sends exactly one
    request, the POST of the formatting prompt, and returns either the
    model's stripped text or, when that fails, the fallback text. *)
Theorem format_response_answers
    (location : pyval) (w c : list (string * pyval)) (names : list string)
    (st : state RT) :
  Dict.get "current" (PDict []) w = PDict c ->
  exists data_dict text,
    collect (PDict c) (map PStr names) [] = Ok data_dict /\
    format_response location (PDict w) (PList (map PStr names)) st
    = (Ok text,
       after (llm_request
                (format_messages location data_dict
                   (Dict.get "current_units" (PDict []) w))) st) /\
    (text = format_fallback location data_dict \/
     exists llm_response,
       read_outcome
         (fst (send (llm_request
                       (format_messages location data_dict
                          (Dict.get "current_units" (PDict []) w))) (world st)))
       = Ok llm_response /\
       message_content llm_response = Ok text).
Proof.
  intros Hcur. destruct (collect_total c names []) as (data_dict & Hcollect).
  exists data_dict.
  unfold format_response, bind at 1 2 3 4, lift, try_except. cbn [Py.get Py.iter].
  rewrite Hcur, Hcollect. unfold format_response_try, bind, lift, ret.
  rewrite call_llm_read.
  destruct (read_outcome _) as [llm_response|e] eqn:Hread.
  - destruct (message_content llm_response) as [text|e] eqn:Htext.
    + exists text. split; [reflexivity|]. split; [reflexivity|].
      right. exists llm_response. now split.
    + eexists. split; [reflexivity|]. split; [reflexivity|]. now left.
  - eexists. split; [reflexivity|]. split; [reflexivity|]. now left.
Qed.

Lemma format_response_log
    (location weather_data parameters : pyval) (st st' : state RT)
    (r : res string) :
  format_response location weather_data parameters st = (r, st') ->
  (sent st' = sent st /\ exists e, r = Raise e) \/
  (exists messages, sent st' = (sent st ++ [llm_request messages])%list /\
                    exists text, r = Ok text).
Proof.
  unfold format_response, bind at 1 2 3 4, lift, try_except.
  destruct (Py.get weather_data "current" (PDict [])) as [current|e];
    [|intros [= <- <-]; left; eauto].
  destruct (Py.iter parameters) as [items|e]; [|intros [= <- <-]; left; eauto].
  destruct (collect current items []) as [data_dict|e];
    [|intros [= <- <-]; left; eauto].
  destruct (Py.get weather_data "current_units" (PDict [])) as [units|e];
    [|intros [= <- <-]; left; eauto].
  unfold format_response_try, bind, lift, ret. rewrite call_llm_read.
  destruct (read_outcome _) as [llm_response|e];
    [destruct (message_content llm_response) as [text|e]|];
    intros [= <- <-]; right; eexists; split; try reflexivity; eauto.
Qed.

End FormattingMore.

Lemma collect_filters_current_witness :
  NoDup (map fst [("temperature_2m", PInt 15); ("relative_humidity_2m", PInt 60)]) /\
  (forall k v,
     Dict.lookup k [("temperature_2m", PInt 15); ("relative_humidity_2m", PInt 60)]
     = Some v ->
     Dict.lookup k [("time", PStr "2024-05-01T12:00"); ("temperature_2m", PInt 15);
                    ("relative_humidity_2m", PInt 60)] = Some v /\
     requested k [PStr "temperature"; PStr "Humidity"; PStr "TEMPERATURE";
                  PStr "uv_index"] = true).
Proof.
  apply collect_filters_current. reflexivity.
Defined.

Section FormattingRuns.

#[local] Existing Instance Demo.runtime.

Lemma format_response_answers_witness :
  exists data_dict text,
    collect (PDict [("time", PStr "2024-05-01T12:00"); ("temperature_2m", PInt 15);
                    ("relative_humidity_2m", PInt 60)])
      (map PStr ["temperature"]) [] = Ok data_dict /\
    format_response (PStr "Paris") (PDict (Demo.entries Demo.forecast_paris))
      (PList (map PStr ["temperature"]))
      (Demo.start [Demo.ok (Demo.completion Demo.paris_sentence)])
    = (Ok text,
       after (llm_request
                (format_messages (PStr "Paris") data_dict
                   (Dict.get "current_units" (PDict [])
                      (Demo.entries Demo.forecast_paris))))
         (Demo.start [Demo.ok (Demo.completion Demo.paris_sentence)])) /\
    (text = format_fallback (PStr "Paris") data_dict \/
     exists llm_response,
       read_outcome
         (fst (send (llm_request
                       (format_messages (PStr "Paris") data_dict
                          (Dict.get "current_units" (PDict [])
                             (Demo.entries Demo.forecast_paris))))
                 (world (Demo.start [Demo.ok (Demo.completion Demo.paris_sentence)]))))
       = Ok llm_response /\
       message_content llm_response = Ok text).
Proof.
  apply (format_response_answers (RT := Demo.runtime)). reflexivity.
Defined.

End FormattingRuns.

(** ** The chat endpoint: outcomes and requests *)

Section ChatMore.

Context {RT : Runtime}.

Lemma fetch_weather_ok_log (latitude longitude parameters weather_data : pyval)
    (st st' : state RT) :
  fetch_weather latitude longitude parameters st = (Ok weather_data, st') ->
  exists params, sent st' = (sent st ++ [GET OPENMETEO_URL params])%list.
Proof.
  destruct (Py.iter parameters) as [items|e] eqn:Hiter.
  - destruct (api_params items) as [codes|e] eqn:Hcodes.
    + rewrite (fetch_weather_items _ _ _ _ _ _ Hiter Hcodes).
      intros [= _ <-]. eexists. reflexivity.
    + unfold fetch_weather, bind, lift. rewrite Hiter, Hcodes. discriminate.
  - unfold fetch_weather, bind, lift. rewrite Hiter. discriminate.
Qed.

Lemma chat_weather_log (location latitude longitude parameters : pyval)
    (st st' : state RT) (r : res ChatResponse) :
  chat_weather location latitude longitude parameters st = (r, st') ->
  sent st' = sent st \/
  (exists params, sent st' = (sent st ++ [GET OPENMETEO_URL params])%list) \/
  (exists params messages,
     sent st' = (sent st ++ [GET OPENMETEO_URL params; llm_request messages])%list).
Proof.
  unfold chat_weather.
  destruct (negb (Py.truthy latitude) || negb (Py.truthy longitude));
    [intros [= <- <-]; now left|].
  unfold bind, attempt, ret.
  destruct (fetch_weather latitude longitude parameters st) as [[wd|e] st1] eqn:Hf.
  - destruct (fetch_weather_ok_log _ _ _ _ _ _ Hf) as (params & Hs1).
    destruct (format_response location wd parameters st1) as [[text|e] st2] eqn:Hr;
      intros [= <- <-];
      destruct (format_response_log _ _ _ _ _ _ Hr)
        as [(Hs2 & _) | (messages & Hs2 & _)]; rewrite Hs2, Hs1.
    + right; left; eauto.
    + right; right. exists params, messages. now rewrite <- app_assoc.
    + right; left; eauto.
    + right; right. exists params, messages. now rewrite <- app_assoc.
  - intros [= <- <-].
    destruct (fetch_weather_log _ _ _ _ _ _ Hf) as [Hs | (params & Hs)].
    + now left.
    + right; left; eauto.
Qed.

Lemma chat_intent_log (request : ChatRequest) (intent : pyval)
    (st st' : state RT) (r : res ChatResponse) :
  chat_intent request intent st = (r, st') ->
  sent st' = sent st \/
  (exists params, sent st' = (sent st ++ [GET OPENMETEO_URL params])%list) \/
  (exists params messages,
     sent st' = (sent st ++ [GET OPENMETEO_URL params; llm_request messages])%list).
Proof.
  destruct intent as [| b | z | f | s | l | d];
    try (intros [= <- <-]; now left).
  destruct (Py.truthy (Dict.get "is_weather_query" (PBool false) d)) eqn:Hw.
  - rewrite (chat_intent_weather _ _ Hw). apply chat_weather_log.
  - unfold chat_intent, bind, lift. cbn [Py.get]. rewrite Hw. cbn [negb].
    rewrite handle_non_weather_query_apology. intros [= <- <-]. now left.
Qed.

(** Whatever the message and the answers of the network, chat sends the
    intent request first, then at most one forecast request, then at most
    one formatting request, in that order and nothing else; and it either
    returns a response or raises the HTTP 500 error with its fixed
    detail. *)
Theorem chat_requests (request : ChatRequest) (st : state RT) :
  (exists new,
     sent (snd (chat request st)) = (sent st ++ new)%list /\
     (new = [llm_request (detect_messages (message request))] \/
      (exists params,
         new = [llm_request (detect_messages (message request));
                GET OPENMETEO_URL params]) \/
      (exists params messages,
         new = [llm_request (detect_messages (message request));
                GET OPENMETEO_URL params; llm_request messages]))) /\
  ((exists answer, fst (chat request st) = Ok answer) \/
   fst (chat request st) =
     Raise (HTTPException 500
              "An error occurred while processing your request. Please try again.")).
Proof.
  destruct (detect_intent_never_raises (message request) st) as (intent & st1 & Hd).
  pose proof (detect_intent_after (message request) st) as Hst1.
  rewrite Hd in Hst1. cbn [snd] in Hst1.
  rewrite (chat_after_detect _ _ _ _ Hd).
  destruct (chat_intent request intent st1) as [[answer|e] st2] eqn:Hc;
    (split; [|cbn [fst]; eauto]); cbn [snd];
    destruct (chat_intent_log _ _ _ _ _ Hc)
      as [Hs | [(params & Hs) | (params & messages & Hs)]];
    rewrite Hs, Hst1; cbn [after sent]; rewrite <- ?app_assoc;
    eexists; (split; [reflexivity|]); cbn [app]; eauto.
Qed.


(** Every message whose intent is not a weather query is answered with the
    fixed apology of handle_non_weather_query, and the intent request is
    the only request of the exchange. *)
Theorem chat_non_weather_apology
    (request : ChatRequest) (st st1 : state RT) (d : list (string * pyval)) :
  detect_intent (message request) st = (Ok (PDict d), st1) ->
  Py.truthy (Dict.get "is_weather_query" (PBool false) d) = false ->
  chat request st =
    (Ok {| response :=
             "I'm sorry, I couldn't process your request at the moment. Please try again." |},
     st1) /\
  sent st1 = (sent st ++ [llm_request (detect_messages (message request))])%list.
Proof.
  intros Hd Hflag. split.
  - rewrite (chat_after_detect _ _ _ _ Hd).
    unfold chat_intent, bind, lift. cbn [Py.get]. rewrite Hflag. cbn [negb].
    rewrite handle_non_weather_query_apology. reflexivity.
  - pose proof (detect_intent_after (message request) st) as H.
    rewrite Hd in H. cbn [snd] in H. rewrite H. reflexivity.
Qed.

(** Once the forecast is a dict whose current-value mapping is a dict (or
    absent) and the parameters are a list of strs, chat always returns a
    response, the text of format_response; it does not raise. *)
Theorem chat_weather_answer
    (request : ChatRequest) (st st1 st2 : state RT)
    (d w c : list (string * pyval)) (names : list string) :
  detect_intent (message request) st = (Ok (PDict d), st1) ->
  Py.truthy (Dict.get "is_weather_query" (PBool false) d) = true ->
  Py.truthy (Dict.get "latitude" PNone d) = true ->
  Py.truthy (Dict.get "longitude" PNone d) = true ->
  Dict.get "parameters" (PList [PStr "temperature"]) d = PList (map PStr names) ->
  fetch_weather (Dict.get "latitude" PNone d) (Dict.get "longitude" PNone d)
    (PList (map PStr names)) st1 = (Ok (PDict w), st2) ->
  Dict.get "current" (PDict []) w = PDict c ->
  exists text st3,
    format_response (Dict.get "location" (PStr "Unknown") d) (PDict w)
      (PList (map PStr names)) st2 = (Ok text, st3) /\
    chat request st = (Ok {| response := text |}, st3).
Proof.
  intros Hd Hw Hlat Hlon Hps Hf Hcur.
  destruct (format_response_ok (Dict.get "location" (PStr "Unknown") d)
              w c names st2 Hcur) as (text & st3 & Hr).
  exists text, st3. split; [exact Hr|].
  rewrite (chat_after_detect _ _ _ _ Hd), (chat_intent_weather _ _ Hw).
  unfold chat_weather, bind, attempt, ret. rewrite Hlat, Hlon, Hps. cbn [negb orb].
  rewrite Hf, Hr. reflexivity.
Qed.

(** When the forecast endpoint answers with JSON that is not an object,
    the fetch succeeds, format_response raises, and chat raises the HTTP
    500 error without asking the model to format anything. *)
Theorem chat_forecast_not_a_dict
    (request : ChatRequest) (st st1 st2 : state RT)
    (d : list (string * pyval)) (weather_data : pyval) :
  detect_intent (message request) st = (Ok (PDict d), st1) ->
  Py.truthy (Dict.get "is_weather_query" (PBool false) d) = true ->
  Py.truthy (Dict.get "latitude" PNone d) = true ->
  Py.truthy (Dict.get "longitude" PNone d) = true ->
  fetch_weather (Dict.get "latitude" PNone d) (Dict.get "longitude" PNone d)
    (Dict.get "parameters" (PList [PStr "temperature"]) d) st1
  = (Ok weather_data, st2) ->
  Shape.is_dict weather_data = false ->
  chat request st = (Raise server_error, st2).
Proof.
  intros Hd Hw Hlat Hlon Hf Hshape.
  rewrite (chat_after_detect _ _ _ _ Hd), (chat_intent_weather _ _ Hw).
  unfold chat_weather, bind, attempt, ret. rewrite Hlat, Hlon. cbn [negb orb].
  rewrite Hf.
  destruct weather_data; try discriminate Hshape; reflexivity.
Qed.

(** When the weather intent has coordinates but its parameters cannot be
    iterated (null, a number, a bool), chat returns the fetch apology
    although no request went to the forecast endpoint. *)
Theorem chat_parameters_not_iterable
    (request : ChatRequest) (st st1 : state RT) (d : list (string * pyval)) :
  detect_intent (message request) st = (Ok (PDict d), st1) ->
  Py.truthy (Dict.get "is_weather_query" (PBool false) d) = true ->
  Py.truthy (Dict.get "latitude" PNone d) = true ->
  Py.truthy (Dict.get "longitude" PNone d) = true ->
  Shape.iterable (Dict.get "parameters" (PList [PStr "temperature"]) d) = false ->
  chat request st =
    (Ok {| response := fetch_apology (Dict.get "location" (PStr "Unknown") d) |}, st1) /\
  weather_calls st1 = weather_calls st.
Proof.
  intros Hd Hw Hlat Hlon Hps. split.
  - rewrite (chat_after_detect _ _ _ _ Hd), (chat_intent_weather _ _ Hw).
    unfold chat_weather, bind, attempt, ret. rewrite Hlat, Hlon. cbn [negb orb].
    unfold fetch_weather, bind, lift.
    destruct (Dict.get "parameters" (PList [PStr "temperature"]) d);
      try discriminate Hps; reflexivity.
  - destruct (detect_intent_log _ _ _ _ Hd) as (req & Hq & Hs).
    exact (weather_calls_quiet _ _ _ Hq Hs).
Qed.

End ChatMore.


Lemma chat_non_weather_apology_witness :
  chat (Demo.ask "Tell me a joke")
    (Demo.answering (Demo.dumps Demo.intent_general) [Demo.ok (Demo.completion Demo.joke)])
  = (Ok {| response := general_apology |},
     Demo.detected "Tell me a joke"
       (Demo.answering (Demo.dumps Demo.intent_general)
          [Demo.ok (Demo.completion Demo.joke)])).
Proof.
  refine (proj1 (chat_non_weather_apology (RT := Demo.runtime)
           (Demo.ask "Tell me a joke")
           (Demo.answering (Demo.dumps Demo.intent_general)
              [Demo.ok (Demo.completion Demo.joke)])
           (Demo.detected "Tell me a joke"
              (Demo.answering (Demo.dumps Demo.intent_general)
                 [Demo.ok (Demo.completion Demo.joke)]))
           (Demo.entries Demo.intent_general) _ _)).
  - vm_compute. reflexivity.
  - reflexivity.
Defined.

Lemma chat_weather_answer_witness :
  exists text st3,
    format_response (PStr "Paris") Demo.forecast_paris
      (PList (map PStr ["temperature"; "Humidity"]))
      (snd (fetch_weather (PInt 48) (PInt 2)
              (PList (map PStr ["temperature"; "Humidity"]))
              (Demo.detected "Weather in Paris?"
                 (Demo.answering (Demo.dumps Demo.intent_paris)
                    [Demo.ok Demo.forecast_paris]))))
    = (Ok text, st3) /\
    chat (Demo.ask "Weather in Paris?")
      (Demo.answering (Demo.dumps Demo.intent_paris) [Demo.ok Demo.forecast_paris])
    = (Ok {| response := text |}, st3).
Proof.
  refine (chat_weather_answer (RT := Demo.runtime)
            (Demo.ask "Weather in Paris?")
            (Demo.answering (Demo.dumps Demo.intent_paris) [Demo.ok Demo.forecast_paris])
            (Demo.detected "Weather in Paris?"
               (Demo.answering (Demo.dumps Demo.intent_paris)
                  [Demo.ok Demo.forecast_paris]))
            _ (Demo.entries Demo.intent_paris) (Demo.entries Demo.forecast_paris)
            [("time", PStr "2024-05-01T12:00"); ("temperature_2m", PInt 15);
             ("relative_humidity_2m", PInt 60)]
            ["temperature"; "Humidity"] _ _ _ _ _ _ _).
  - vm_compute. reflexivity.
  - reflexivity.
  - reflexivity.
  - reflexivity.
  - reflexivity.
  - vm_compute. reflexivity.
  - reflexivity.
Defined.

Lemma chat_forecast_not_a_dict_witness :
  chat (Demo.ask "Weather in Paris?")
    (Lab.answering (Demo.dumps Demo.intent_paris) [Demo.ok (PList [])])
  = (Raise server_error,
     snd (fetch_weather (PInt 48) (PInt 2)
            (PList [PStr "temperature"; PStr "Humidity"])
            (snd (detect_intent "Weather in Paris?"
                    (Lab.answering (Demo.dumps Demo.intent_paris)
                       [Demo.ok (PList [])]))))).
Proof.
  refine (chat_forecast_not_a_dict (RT := Lab.runtime)
            (Demo.ask "Weather in Paris?")
            (Lab.answering (Demo.dumps Demo.intent_paris) [Demo.ok (PList [])])
            (snd (detect_intent "Weather in Paris?"
                    (Lab.answering (Demo.dumps Demo.intent_paris)
                       [Demo.ok (PList [])])))
            _ (Demo.entries Demo.intent_paris) (PList []) _ _ _ _ _ _).
  - vm_compute. reflexivity.
  - reflexivity.
  - reflexivity.
  - reflexivity.
  - vm_compute. reflexivity.
  - reflexivity.
Defined.

Lemma chat_parameters_not_iterable_witness :
  chat (Demo.ask "Weather in Lima?")
    (Lab.answering (Demo.dumps Lab.intent_null_parameters) [Demo.ok Demo.forecast_paris])
  = (Ok {| response :=
             "I'm sorry, I couldn't fetch the weather data for Lima at the moment. Please try again later." |},
     snd (detect_intent "Weather in Lima?"
            (Lab.answering (Demo.dumps Lab.intent_null_parameters)
               [Demo.ok Demo.forecast_paris]))).
Proof.
  refine (proj1 (chat_parameters_not_iterable (RT := Lab.runtime)
            (Demo.ask "Weather in Lima?")
            (Lab.answering (Demo.dumps Lab.intent_null_parameters)
               [Demo.ok Demo.forecast_paris])
            (snd (detect_intent "Weather in Lima?"
                    (Lab.answering (Demo.dumps Lab.intent_null_parameters)
                       [Demo.ok Demo.forecast_paris])))
            (Demo.entries Lab.intent_null_parameters) _ _ _ _ _)).
  - vm_compute. reflexivity.
  - reflexivity.
  - reflexivity.
  - reflexivity.
  - reflexivity.
Defined.

(** ** Reading the model's reply *)

Section Replies.

Lemma index_head {A} (x : A) (l : list A) : Py.index (x :: l) 0 = Ok x.
Proof.
  unfold Py.index. change (0 <? 0)%Z with false. cbv iota zeta.
  assert (H : (0 <? Z.of_nat (length (x :: l)))%Z = true)
    by (apply Z.ltb_lt; cbn [length]; lia).
  rewrite H. reflexivity.
Qed.

(** The reply of the model is accepted exactly when it is a dict whose
    [choices] is a list that starts with a dict whose [message] is a dict
    whose [content] is a str: message_content then returns that str
    stripped, and raises for every other shape. *)
Theorem message_content_accepts (llm_response : pyval) (text : string) :
  message_content llm_response = Ok text <->
  exists d first others m content,
    llm_response = PDict d /\
    Dict.lookup "choices" d = Some (PList (PDict first :: others)) /\
    Dict.lookup "message" first = Some (PDict m) /\
    Dict.lookup "content" m = Some (PStr content) /\
    text = Str.strip content.
Proof.
  split.
  - unfold message_content. intros H.
    destruct llm_response as [| | | | | |d]; try discriminate H.
    cbn [Py.getitem res_bind] in H.
    destruct (Dict.lookup "choices" d) as [choices|] eqn:Hchoices;
      [|discriminate H].
    cbn [res_bind] in H.
    destruct choices as [| | | |s|items|cd]; try discriminate H.
    + destruct s as [|a s]; [discriminate H|].
      cbn in H. discriminate H.
    + destruct items as [|item others]; [discriminate H|].
      change (Py.getitem (PList (item :: others)) (PInt 0))
        with (Py.index (item :: others) 0) in H.
      rewrite index_head in H.
      cbn [res_bind] in H.
      destruct item as [| | | | | |first]; try discriminate H.
      cbn [Py.getitem res_bind] in H.
      destruct (Dict.lookup "message" first) as [msg|] eqn:Hmsg; [|discriminate H].
      cbn [res_bind] in H.
      destruct msg as [| | | | | |m]; try discriminate H.
      cbn [Py.getitem res_bind] in H.
      destruct (Dict.lookup "content" m) as [content|] eqn:Hcontent;
        [|discriminate H].
      cbn [res_bind] in H.
      destruct content as [| | | |content| |]; try discriminate H.
      injection H as <-.
      exists d, first, others, m, content. repeat split; assumption.
  - intros (d & first & others & m & content & -> & Hchoices & Hmsg & Hcontent & ->).
    unfold message_content. cbn [Py.getitem res_bind]. rewrite Hchoices.
    cbn [res_bind].
    change (Py.getitem (PList (PDict first :: others)) (PInt 0))
      with (Py.index (PDict first :: others) 0).
    rewrite index_head.
    cbn [res_bind Py.getitem]. rewrite Hmsg. cbn [res_bind Py.getitem].
    rewrite Hcontent. reflexivity.
Qed.

End Replies.

Lemma message_content_accepts_witness :
  message_content (Demo.completion Demo.paris_sentence)
  = Ok "It is 15 degrees in Paris.".
Proof.
  apply message_content_accepts.
  exists (Demo.entries (Demo.completion Demo.paris_sentence)),
    [("message", PDict [("role", PStr "assistant");
                        ("content", PStr Demo.paris_sentence)])],
    [], [("role", PStr "assistant"); ("content", PStr Demo.paris_sentence)],
    Demo.paris_sentence.
  repeat split.
Defined.
